(** * ChemTools: conceptual DFT tools of the linear energy model

    A shallow embedding of [chemtools/conceptual/linear.py]: the classes
    [LinearGlobalTool] (energy as a piecewise linear function of the number
    of electrons) and [LinearLocalTool] (electron density, Fukui function and
    local softness of the same model).

    Conventions of the embedding.
    - Numbers.  In the classes [LinearGlobalTool] and [LinearLocalTool] a
      Python [int], [long] or [float] is read as an exact rational ([Qc],
      rationals in lowest terms, with Leibniz equality).  This settles what a
      method tests, raises, logs, allocates and aliases, and which expression
      it evaluates.  It does not settle the value of that expression when its
      operands are floats: every operation on floats is rounded, and an
      identity of exact arithmetic need not survive the rounding.  The module
      [Binary64] embeds the arithmetic of [energy], [density] and
      [fukui_function] with binary64 floats, NaN included, and the statements
      about the values these methods compute are made there.
    - Arguments.  [n_elec] and [order] are arbitrary Python objects: [pyval]
      keeps apart [None], [bool], [int], [long], [float] and a non-numeric
      object (a string).  The module is Python 2 code (it names [long]), so
      comparisons between [None], numbers and other objects follow CPython 2.
    - Effects.  Methods run in a monad over a [world]: a store of the mutable
      sequences (numpy arrays and the Python list [_params]) addressed by
      location, and the list of warnings handed to [log.warn].  An exception
      ends the method and keeps the world it reached.  A method that returns
      an array returns its location, so that a copy and an alias differ.
    - Messages.  A [ValueError] carries the message of the source before
      [format] fills it in; a warning is recorded with the quantity its
      message names and the three values formatted into it.
    - Arrays are one-dimensional arrays of floats ([float64]); numpy's
      broadcasting of an array of length one and its [ValueError] on
      incompatible shapes are kept.
    - [chemtools/conceptual/base.py] and [chemtools/conceptual/utils.py] are
      outside the files modelled here: what [linear.py] uses of them
      ([check_dict_energy], the constructors of the base classes and the
      property [density_zero]) is modelled from the specification, each under
      a comment that says so. *)

From Stdlib Require Import QArith Qcanon.
From Stdlib Require Floats.
From stdpp Require Import base numbers gmap list sorting strings.

Local Open Scope Qc_scope.

(** ** Numbers *)

(** A rational literal [n/d]. *)
Definition qc (n : Z) (d : positive) : Qc := Q2Qc (n # d).

(** The float literal [0.5]. *)
Definition half : Qc := qc 1 2.

(** ** Python values passed as arguments *)

Inductive pyval : Type :=
  | PNone
  | PBool (b : bool)
  | PInt (z : Z)
  | PLong (z : Z)
  | PFloat (q : Qc)
  | PStr (s : string).

Definition is_None (v : pyval) : bool :=
  match v with PNone => true | _ => false end.

(** The numeric value of a number ([bool] is a subclass of [int]). *)
Definition num_of (v : pyval) : option Qc :=
  match v with
  | PBool b => Some (if b then 1 else 0)
  | PInt z | PLong z => Some (Qc_of_Z z)
  | PFloat q => Some q
  | PNone | PStr _ => None
  end.

(** [isinstance(v, (int, float, long))] *)
Definition isinstance_number (v : pyval) : bool :=
  match v with
  | PBool _ | PInt _ | PLong _ | PFloat _ => true
  | PNone | PStr _ => false
  end.

(** [isinstance(v, int)]: a Python 2 [long] is not an [int]. *)
Definition isinstance_int (v : pyval) : bool :=
  match v with
  | PBool _ | PInt _ => true
  | _ => false
  end.

(** Comparison of an object with a number.  Numbers compare by value; in
    CPython 2 [None] is smaller than every number and every other object is
    larger than every number; [==] between unrelated types is [False]. *)
Definition py_lt (v : pyval) (x : Qc) : bool :=
  match num_of v with
  | Some q => bool_decide (q < x)
  | None => is_None v
  end.

Definition py_le (v : pyval) (x : Qc) : bool :=
  match num_of v with
  | Some q => bool_decide (q ≤ x)
  | None => is_None v
  end.

Definition py_gt (v : pyval) (x : Qc) : bool :=
  match num_of v with
  | Some q => bool_decide (x < q)
  | None => negb (is_None v)
  end.

Definition py_ge (v : pyval) (x : Qc) : bool :=
  match num_of v with
  | Some q => bool_decide (x ≤ q)
  | None => negb (is_None v)
  end.

Definition py_eq (v : pyval) (x : Qc) : bool :=
  match num_of v with
  | Some q => bool_decide (q = x)
  | None => false
  end.

(** The chained comparison [lo <= v <= hi]. *)
Definition py_between (lo : Qc) (v : pyval) (hi : Qc) : bool :=
  py_ge v lo && py_le v hi.

(** ** Exceptions, warnings and the world *)

(** [DanglingReference] is not a Python exception: it is what the model
    answers when a location is not in the store, which no run from a world
    that holds the objects of the model reaches. *)
Inductive exn : Type :=
  | ValueError (msg : string)  (* the message, before [format] fills it in *)
  | TypeError
  | IndexError
  | KeyError
  | UnboundLocalError
  | DanglingReference.

Inductive result (A : Type) : Type :=
  | Ok (a : A)
  | Raise (e : exn).
Arguments Ok {A} a.
Arguments Raise {A} e.

Inductive quantity : Type :=
  | Energy | EnergyDerivative | ElectronDensity | FukuiFunction | LocalSoftness.

(** One call of [log.warn]: the quantity named by the message and the three
    values formatted into it. *)
Record warning : Type := Warning {
  w_quantity : quantity;
  w_n_elec : pyval;
  w_low : Qc;
  w_high : Qc
}.

(** Locations of the store. *)
Abbreviation loc := nat (only parsing).

Record world : Type := World {
  heap : list (list Qc);
  log : list warning
}.

Definition M (A : Type) : Type := world → result A * world.

Definition ret {A} (a : A) : M A := λ w, (Ok a, w).

Definition bind {A B} (c : M A) (k : A → M B) : M B :=
  λ w, match c w with
       | (Ok a, w') => k a w'
       | (Raise e, w') => (Raise e, w')
       end.

Definition raise {A} (e : exn) : M A := λ w, (Raise e, w).

Definition lift {A} (r : result A) : M A := λ w, (r, w).

Declare Scope py_scope.
Delimit Scope py_scope with py.
Notation "x <- c ;; k" := (bind c (λ x, k))
  (at level 100, c at next level, right associativity) : py_scope.
Notation "c ;;; k" := (bind c (λ _, k))
  (at level 100, right associativity) : py_scope.
Local Open Scope py_scope.

(** [log.warn(...)] *)
Definition log_warn (x : warning) : M unit :=
  λ w, (Ok tt, World (heap w) (log w ++ [x])).

(** A new sequence object: a fresh location at the end of the store. *)
Definition new_array (xs : list Qc) : M loc :=
  λ w, (Ok (length (heap w)), World (heap w ++ [xs]) (log w)).

Definition read_array (l : loc) : M (list Qc) :=
  λ w, match heap w !! l with
       | Some xs => (Ok xs, w)
       | None => (Raise DanglingReference, w)
       end.

(** In-place update of the object at [l]. *)
Definition write_array (l : loc) (xs : list Qc) : M unit :=
  λ w, match heap w !! l with
       | Some _ => (Ok tt, World (<[l := xs]> (heap w)) (log w))
       | None => (Raise DanglingReference, w)
       end.

(** [seq[i]] on the list object at [l]. *)
Definition getitem (l : loc) (i : nat) : M Qc :=
  xs <- read_array l ;;
  match xs !! i with
  | Some x => ret x
  | None => raise IndexError
  end.

(** [v * x] and [v - x] for an object [v] and a float [x]: a non-number
    raises [TypeError]. *)
Definition py_mul (v : pyval) (x : Qc) : M Qc :=
  match num_of v with
  | Some q => ret (q * x)
  | None => raise TypeError
  end.

Definition py_sub (v : pyval) (x : Qc) : M Qc :=
  match num_of v with
  | Some q => ret (q - x)
  | None => raise TypeError
  end.

(** ** Dictionaries keyed by a number of electrons *)

(** [sorted(d.keys())] *)
Definition sorted_keys {V} (d : gmap Qc V) : list Qc :=
  merge_sort Qcle (map_to_list d).*1.

(** [d[k]] *)
Definition dict_get {V} (d : gmap Qc V) (k : Qc) : result V :=
  match d !! k with
  | Some v => Ok v
  | None => Raise KeyError
  end.

(** Modelled from the spec: [check_dict_energy] of
    [chemtools/conceptual/utils.py] lies outside the files modelled here.
    Following section 4.1 of the specification it returns the middle sorted
    key [N0] and the values at [N0 - 1], [N0], [N0 + 1], and fails when the
    mapping does not have exactly three entries or when its sorted keys are
    not consecutive by exactly one. *)
Definition check_dict_energy (d : gmap Qc Qc) : result (Qc * Qc * Qc * Qc) :=
  if bool_decide (size d ≠ 3%nat) then
    Raise (ValueError "The energy model requires 3 energy values!")
  else
    match sorted_keys d with
    | [k0; k1; k2] =>
        if bool_decide ([k0; k1; k2] ≠ [k0; k0 + 1; k0 + 2]) then
          Raise (ValueError "Number of electrons should differ by one!")
        else
          match d !! k0, d !! k1, d !! k2 with
          | Some e_m, Some e_0, Some e_p => Ok (k1, e_m, e_0, e_p)
          | _, _, _ => Raise KeyError
          end
    | _ => Raise IndexError
    end.

(** ** The global tool *)

Module LinearGlobalTool.

(** The attributes of an instance.  [_params] is a Python list, held in the
    store; the others are immutable numbers. *)
Record t : Type := {
  _n0 : Qc;
  _n_max : option Qc;
  _ip : Qc;
  _ea : Qc;
  _params : loc;
  dict_energy : gmap Qc Qc
}.

(** Modelled from the spec: [BaseGlobalTool.__init__] of
    [chemtools/conceptual/base.py] lies outside the files modelled here.  It
    receives [n0] and [n_max], stores them, and stores the ionization
    potential and the electron affinity read by [mu_minus], [mu_plus] and
    [mu_zero].  Their signs are the physical ones the specification uses in
    its worked example (section 8: IP = E(N0 - 1) - E(N0)), which are also
    the ones the docstrings of [mu_minus] and [mu_plus] in [linear.py]
    state: mu^- = E(N0) - E(N0 - 1) = -IP and mu^+ = E(N0 + 1) - E(N0) = -EA.
    The energies, which the original reads back from the instance, are
    passed explicitly. *)
Definition BaseGlobalTool__init__
    (n0 : Qc) (n_max : option Qc) (energy_m energy_0 energy_p : Qc)
    (params : loc) (dict_energy : gmap Qc Qc) : t :=
  {| _n0 := n0;
     _n_max := n_max;
     _ip := energy_m - energy_0;
     _ea := energy_0 - energy_p;
     _params := params;
     dict_energy := dict_energy |}.

Definition __init__ (dict_energy : gmap Qc Qc) : M t :=
  r <- lift (check_dict_energy dict_energy) ;;
  let '(n_ref, energy_m, energy_0, energy_p) := r in
  let param_b := energy_0 - energy_m in
  let param_a := energy_0 - n_ref * param_b in
  let param_b_prime := energy_p - energy_0 in
  let param_a_prime := energy_0 - n_ref * param_b_prime in
  params <- new_array [param_a; param_b; param_a_prime; param_b_prime] ;;
  let n_max := if bool_decide (energy_0 < energy_p) then Some n_ref else None in
  ret (BaseGlobalTool__init__ n_ref n_max energy_m energy_0 energy_p
         params dict_energy).

(** The property [params]: the list object itself. *)
Definition params (self : t) : loc := _params self.

Definition mu_minus (self : t) : Qc := (-1) * _ip self.

Definition mu_plus (self : t) : Qc := (-1) * _ea self.

Definition mu_zero (self : t) : Qc := qc (-1) 2 * (_ea self + _ip self).

(** The test guarding the warning: [not n0 - 1 <= n_elec <= n0 + 1]. *)
Definition outside (self : t) (n_elec : pyval) : bool :=
  negb (py_between (_n0 self - 1) n_elec (_n0 self + 1)).

Definition warn_outside (q : quantity) (self : t) (n_elec : pyval) : M unit :=
  if outside self n_elec then
    log_warn (Warning q n_elec (_n0 self - 1) (_n0 self + 1))
  else ret tt.

Definition energy (self : t) (n_elec : pyval) : M (option Qc) :=
  if is_None n_elec then ret None
  else if py_lt n_elec 0 then
    raise (ValueError "Number of electrons cannot be negativ! n_elec={0}")
  else
    warn_outside Energy self n_elec ;;;
    if py_le n_elec (_n0 self) then
      p0 <- getitem (_params self) 0 ;;
      p1 <- getitem (_params self) 1 ;;
      m <- py_mul n_elec p1 ;;
      ret (Some (p0 + m))
    else if py_gt n_elec (_n0 self) then
      p2 <- getitem (_params self) 2 ;;
      p3 <- getitem (_params self) 3 ;;
      m <- py_mul n_elec p3 ;;
      ret (Some (p2 + m))
    else
      raise (ValueError "Argument n_elec should be a positive real number!").

Definition energy_derivative (self : t) (n_elec : pyval) (order : pyval)
    : M (option Qc) :=
  if is_None n_elec then ret None
  else if py_lt n_elec 0 then
    raise (ValueError "Number of electrons cannot be negativ! n_elec={0}")
  else
    warn_outside EnergyDerivative self n_elec ;;;
    if negb (isinstance_int order && py_gt order 0) then
      raise (ValueError "Argument order should be an integer greater than or equal to 1.")
    else if py_eq n_elec (_n0 self) then ret None
    else if py_ge order 2 then ret (Some 0)
    else if py_lt n_elec (_n0 self) then
      p1 <- getitem (_params self) 1 ;; ret (Some p1)
    else if py_gt n_elec (_n0 self) then
      p3 <- getitem (_params self) 3 ;; ret (Some p3)
    else
      raise (ValueError "Argument n_elec should be a positive real number!").

(** The default value of [order]. *)
Definition default_order : pyval := PInt 1.

(** The world a query on [n_elec] continues in after the advisory test. *)
Definition warned (q : quantity) (self : t) (n_elec : pyval) (w : world)
    : world :=
  if outside self n_elec then
    World (heap w) (log w ++ [Warning q n_elec (_n0 self - 1) (_n0 self + 1)])
  else w.

End LinearGlobalTool.

(** ** numpy arrays (one-dimensional) *)

(** An element-wise binary operation on two arrays, with numpy's broadcasting
    of an array of length one; incompatible shapes raise [ValueError]. *)
Definition np_binop (f : Qc → Qc → Qc) (xs ys : list Qc) : result (list Qc) :=
  if bool_decide (length xs = length ys) then Ok (zip_with f xs ys)
  else
    match xs, ys with
    | [x], _ => Ok (map (f x) ys)
    | _, [y] => Ok (map (λ x, f x y) xs)
    | _, _ => Raise (ValueError "operands could not be broadcast together")
    end.

(** The operand of [out += ys] as it is added to [out]: the shape of the
    output is fixed, only [ys] may be broadcast. *)
Definition np_iadd (out ys : list Qc) : result (list Qc) :=
  if bool_decide (length ys = length out) then Ok (zip_with Qcplus out ys)
  else
    match ys with
    | [y] => Ok (map (λ x, x + y) out)
    | _ => Raise (ValueError "non-broadcastable output operand")
    end.

(** [array * c] and [c * array] for a scalar [c]: a new array. *)
Definition np_scale_r (xs : list Qc) (c : Qc) : list Qc := map (λ x, x * c) xs.
Definition np_scale_l (c : Qc) (xs : list Qc) : list Qc := map (λ x, c * x) xs.

(** [a - b] on the array objects at [a] and [b]; the value of the new
    array, not yet bound to a name. *)
Definition np_sub (a b : loc) : M (list Qc) :=
  xs <- read_array a ;;
  ys <- read_array b ;;
  lift (np_binop Qcminus xs ys).

(** [rho += ys], in place on the object at [rho]. *)
Definition iadd (rho : loc) (ys : list Qc) : M unit :=
  out <- read_array rho ;;
  r <- lift (np_iadd out ys) ;;
  write_array rho r.

(** ** The local tool *)

Module LinearLocalTool.

(** The attributes of an instance: the reference number of electrons and
    six array objects. *)
Record t : Type := {
  _n0 : Qc;
  _dens_m : loc;
  _dens_0 : loc;
  _dens_p : loc;
  _ff_plus : loc;
  _ff_minus : loc;
  _ff_zero : loc
}.

(** [d.keys()] *)
Definition keys (dict_density : gmap Qc loc) : list Qc :=
  (map_to_list dict_density).*1.

(** Modelled from the spec: [BaseLocalTool.__init__] of
    [chemtools/conceptual/base.py] lies outside the files modelled here.
    Following sections 3 and 4.3 of the specification it retains [n0] and
    the three density fields of the triple, those at [n0 - 1], [n0] and
    [n0 + 1], without copying or validating them. *)
Definition BaseLocalTool__init__ (dict_density : gmap Qc loc) (n0 : Qc)
    : M (loc * loc * loc) :=
  dens_0 <- lift (dict_get dict_density n0) ;;
  dens_m <- lift (dict_get dict_density (n0 - 1)) ;;
  dens_p <- lift (dict_get dict_density (n0 + 1)) ;;
  ret (dens_m, dens_0, dens_p).

(** Modelled from the spec: the property [density_zero] of [BaseLocalTool]
    lies outside the files modelled here; by section 4.3 of the specification
    it is the retained field of the reference system. *)
Definition density_zero (self : t) : loc := _dens_0 self.

Definition __init__ (dict_density : gmap Qc loc) : M t :=
  if bool_decide (size dict_density ≠ 3%nat)
     || negb (forallb (λ key, bool_decide (0 ≤ key)) (keys dict_density))
  then
    raise (ValueError "Linear model requires 3 density values corresponding to positive number of electrons!")
  else
    n0 <- (match sorted_keys dict_density !! 1%nat with
           | Some k => ret k
           | None => raise IndexError
           end) ;;
    if bool_decide (n0 < 1) then
      raise (ValueError "Argument n0 cannot be less than one! Given n0={0}")
    else if bool_decide (sorted_keys dict_density ≠ [n0 - 1; n0; n0 + 1]) then
      raise (ValueError "Number of electrons should differ by one!")
    else
      base <- BaseLocalTool__init__ dict_density n0 ;;
      let '(dens_m, dens_0, dens_p) := base in
      v_plus <- np_sub dens_p dens_0 ;;
      ff_plus <- new_array v_plus ;;
      v_minus <- np_sub dens_0 dens_m ;;
      ff_minus <- new_array v_minus ;;
      v_diff <- np_sub dens_p dens_m ;;
      ff_zero <- new_array (np_scale_l half v_diff) ;;
      ret {| _n0 := n0;
             _dens_m := dens_m; _dens_0 := dens_0; _dens_p := dens_p;
             _ff_plus := ff_plus; _ff_minus := ff_minus;
             _ff_zero := ff_zero |}.

Definition ff_plus (self : t) : loc := _ff_plus self.
Definition ff_minus (self : t) : loc := _ff_minus self.
Definition ff_zero (self : t) : loc := _ff_zero self.

(** The test guarding the warning: [not n0 - 1 <= n_elec <= n0 + 1]. *)
Definition outside (self : t) (n_elec : pyval) : bool :=
  negb (py_between (_n0 self - 1) n_elec (_n0 self + 1)).

Definition warn_outside (q : quantity) (self : t) (n_elec : pyval) : M unit :=
  if outside self n_elec then
    log_warn (Warning q n_elec (_n0 self - 1) (_n0 self + 1))
  else ret tt.

(** The world a query on [n_elec] continues in after the advisory test. *)
Definition warned (q : quantity) (self : t) (n_elec : pyval) (w : world)
    : world :=
  if outside self n_elec then
    World (heap w) (log w ++ [Warning q n_elec (_n0 self - 1) (_n0 self + 1)])
  else w.

(** The two checks that open [density], [fukui_function] and [softness];
    the message of the second one is spelled differently in
    [fukui_function]. *)
Definition check_n_elec (negative : string) (n_elec : pyval) : M unit :=
  if negb (is_None n_elec) && negb (isinstance_number n_elec) then
    raise (ValueError "Number of electrons should be numeric! n_elec={0}")
  else if negb (is_None n_elec) && py_lt n_elec 0 then
    raise (ValueError negative)
  else ret tt.

Definition density (self : t) (n_elec : pyval) : M loc :=
  check_n_elec "Number of electrons cannot be negativ! n_elec={0}" n_elec ;;;
  warn_outside ElectronDensity self n_elec ;;;
  zero <- read_array (density_zero self) ;;
  rho <- new_array zero ;;
  if negb (is_None n_elec) && negb (py_eq n_elec (_n0 self)) then
    if py_lt n_elec (_n0 self) then
      ff <- read_array (_ff_minus self) ;;
      dn <- py_sub n_elec (_n0 self) ;;
      iadd rho (np_scale_r ff dn) ;;;
      ret rho
    else if py_gt n_elec (_n0 self) then
      ff <- read_array (_ff_plus self) ;;
      dn <- py_sub n_elec (_n0 self) ;;
      iadd rho (np_scale_r ff dn) ;;;
      ret rho
    else ret rho
  else ret rho.

Definition fukui_function (self : t) (n_elec : pyval) : M loc :=
  check_n_elec "Number of electrons cannot be negative! n_elec={0}" n_elec ;;;
  warn_outside FukuiFunction self n_elec ;;;
  if is_None n_elec || py_eq n_elec (_n0 self) then ret (_ff_zero self)
  else if py_lt n_elec (_n0 self) then ret (_ff_minus self)
  else if py_gt n_elec (_n0 self) then ret (_ff_plus self)
  else raise UnboundLocalError.

Definition softness (self : t) (global_softness : Qc) (n_elec : pyval)
    : M loc :=
  check_n_elec "Number of electrons cannot be negativ! n_elec={0}" n_elec ;;;
  warn_outside LocalSoftness self n_elec ;;;
  if is_None n_elec || py_eq n_elec (_n0 self) then
    ff <- read_array (_ff_zero self) ;;
    new_array (np_scale_l global_softness ff)
  else if py_lt n_elec (_n0 self) then
    ff <- read_array (_ff_minus self) ;;
    new_array (np_scale_l global_softness ff)
  else if py_gt n_elec (_n0 self) then
    ff <- read_array (_ff_plus self) ;;
    new_array (np_scale_l global_softness ff)
  else raise UnboundLocalError.

End LinearLocalTool.

(** ** Vocabulary of the specification *)

(** The parameters a, b, a', b' of the energy model (specification,
    section 3). *)
Definition spec_b (e_m e_0 : Qc) : Qc := e_0 - e_m.
Definition spec_a (n0 e_m e_0 : Qc) : Qc := e_0 - n0 * spec_b e_m e_0.
Definition spec_b' (e_0 e_p : Qc) : Qc := e_p - e_0.
Definition spec_a' (n0 e_0 e_p : Qc) : Qc := e_0 - n0 * spec_b' e_0 e_p.

(** The dictionary is the triple {n0 - 1: x_m, n0: x_0, n0 + 1: x_p}. *)
Definition is_triple {V} (d : gmap Qc V) (n0 : Qc) (x_m x_0 x_p : V) : Prop :=
  d !! (n0 - 1) = Some x_m ∧ d !! n0 = Some x_0 ∧ d !! (n0 + 1) = Some x_p.

(** Element-wise sum, difference and scaling of fields. *)
Definition vadd (xs ys : list Qc) : list Qc := zip_with Qcplus xs ys.
Definition vsub (xs ys : list Qc) : list Qc := zip_with Qcminus xs ys.
Definition vscale (c : Qc) (xs : list Qc) : list Qc := map (Qcmult c) xs.


(** The inputs the specification has the constructor of the local model
    reject: not exactly three entries, a negative key, a middle sorted key
    below one, or sorted keys other than [N0 - 1, N0, N0 + 1]. *)
Definition invalid_density_input (d : gmap Qc loc) : Prop :=
  size d ≠ 3%nat
  ∨ (∃ k, k ∈ LinearLocalTool.keys d ∧ k < 0)
  ∨ (∃ n0, sorted_keys d !! 1%nat = Some n0
           ∧ (n0 < 1 ∨ sorted_keys d ≠ [n0 - 1; n0; n0 + 1])).

(** In world [w] the fields of the model [m] are those of the density triple
    (r_m, r_0, r_p): the reference density and the three Fukui functions
    computed from it. *)
Definition stored (m : LinearLocalTool.t) (w : world)
    (r_m r_0 r_p : list Qc) : Prop :=
  length r_m = length r_0
  ∧ length r_p = length r_0
  ∧ heap w !! LinearLocalTool._dens_0 m = Some r_0
  ∧ heap w !! LinearLocalTool._ff_minus m = Some (vsub r_0 r_m)
  ∧ heap w !! LinearLocalTool._ff_plus m = Some (vsub r_p r_0)
  ∧ heap w !! LinearLocalTool._ff_zero m = Some (vscale half (vsub r_p r_m)).

(** The model [m] was built in world [w0] from the dictionary [d], the
    density triple {n0 - 1: r_m, n0: r_0, n0 + 1: r_p} of same-shaped fields,
    and in world [w] the fields it reads are still as the constructor left
    them. *)
Definition model_of (d : gmap Qc loc) (w0 : world) (m : LinearLocalTool.t)
    (w : world) (r_m r_0 r_p : list Qc) : Prop :=
  ∃ w1 l_m l_0 l_p,
    LinearLocalTool.__init__ d w0 = (Ok m, w1)
    ∧ is_triple d (LinearLocalTool._n0 m) l_m l_0 l_p
    ∧ heap w0 !! l_m = Some r_m
    ∧ heap w0 !! l_0 = Some r_0
    ∧ heap w0 !! l_p = Some r_p
    ∧ length r_m = length r_0
    ∧ length r_p = length r_0
    ∧ ∀ l, l ∈ [LinearLocalTool._dens_0 m; LinearLocalTool._ff_minus m;
                LinearLocalTool._ff_plus m; LinearLocalTool._ff_zero m] →
           heap w !! l = heap w1 !! l.

(** The optional argument [n_elec] is admissible: omitted, or a number that
    is not negative.  [N] is the number of electrons it stands for. *)
Definition admissible (n0 : Qc) (n_elec : pyval) (N : Qc) : Prop :=
  (n_elec = PNone ∧ N = n0) ∨ (num_of n_elec = Some N ∧ 0 ≤ N).

(** The field [fukui_function] selects for the number of electrons [N]. *)
Definition select_ff (n0 N : Qc) (f_minus f_plus f_zero : list Qc)
    : list Qc :=
  if bool_decide (N < n0) then f_minus
  else if bool_decide (n0 < N) then f_plus
  else f_zero.

(** The density of the linear model at [N] electrons. *)
Definition linear_density (n0 N : Qc) (rho_0 f_minus f_plus : list Qc)
    : list Qc :=
  if bool_decide (N < n0) then vadd rho_0 (vscale (N - n0) f_minus)
  else if bool_decide (n0 < N) then vadd rho_0 (vscale (N - n0) f_plus)
  else rho_0.

(** [order] is a positive integer, as [energy_derivative] tests it. *)
Definition positive_int (order : pyval) : Prop :=
  match order with
  | PInt z => (0 < z)%Z
  | PBool b => b = true
  | _ => False
  end.

(** [n_elec] is given and is not a number, or is a negative number. *)
Definition bad_n_elec (n_elec : pyval) : Prop :=
  is_None n_elec = false
  ∧ (isinstance_number n_elec = false ∨ ∃ N, num_of n_elec = Some N ∧ N < 0).


(** A computation that hands nothing to [log.warn]. *)
Definition keeps_log {A} (c : M A) : Prop :=
  ∀ w, log (c w).2 = log w.


(** A computation that leaves every object of the store as it found it. *)
Definition keeps_heap {A} (c : M A) : Prop :=
  ∀ w, heap (c w).2 = heap w.

(** A computation that may add objects to the store and changes none of
    those it found. *)
Definition extends_heap {A} (c : M A) : Prop :=
  ∀ w, heap w `prefix_of` heap (c w).2.

(** ** Worked examples *)

Definition empty_world : world := World [] [].

(** The value of a run that did not raise. *)
Definition value_of {A} (dflt : A) (r : result A * world) : A :=
  match r.1 with
  | Ok a => a
  | Raise _ => dflt
  end.

(** The triple {4: -14.0, 5: -15.0, 6: -15.5}. *)
Definition worked_triple : gmap Qc Qc :=
  {[ qc 4 1 := qc (-14) 1; qc 5 1 := qc (-15) 1; qc 6 1 := qc (-31) 2 ]}.

Definition no_global_tool : LinearGlobalTool.t :=
  {| LinearGlobalTool._n0 := 0;
     LinearGlobalTool._n_max := None;
     LinearGlobalTool._ip := 0;
     LinearGlobalTool._ea := 0;
     LinearGlobalTool._params := 0%nat;
     LinearGlobalTool.dict_energy := ∅ |}.

Definition worked_model : LinearGlobalTool.t :=
  value_of no_global_tool (LinearGlobalTool.__init__ worked_triple empty_world).

Definition worked_world : world :=
  (LinearGlobalTool.__init__ worked_triple empty_world).2.

(** Three densities on a grid of two points, for 4, 5 and 6 electrons. *)
Definition worked_densities : gmap Qc loc :=
  {[ qc 4 1 := 0%nat; qc 5 1 := 1%nat; qc 6 1 := 2%nat ]}.

Definition grid_world : world :=
  World [[qc 1 1; qc 2 1]; [qc 3 1; qc 5 1]; [qc 7 1; qc 11 1]] [].

Definition no_local_tool : LinearLocalTool.t :=
  {| LinearLocalTool._n0 := 0;
     LinearLocalTool._dens_m := 0%nat;
     LinearLocalTool._dens_0 := 0%nat;
     LinearLocalTool._dens_p := 0%nat;
     LinearLocalTool._ff_plus := 0%nat;
     LinearLocalTool._ff_minus := 0%nat;
     LinearLocalTool._ff_zero := 0%nat |}.

Definition worked_local : LinearLocalTool.t :=
  value_of no_local_tool (LinearLocalTool.__init__ worked_densities grid_world).

Definition worked_local_world : world :=
  (LinearLocalTool.__init__ worked_densities grid_world).2.

(** ** The arithmetic in binary64 *)

(** The definitions above read numbers as rationals, which settles what a
    method tests, raises, logs, allocates and aliases.  The values the
    methods compute are Python [float]s and numpy [float64]s: every
    subtraction, product and sum is rounded to the nearest binary64 value.
    [Binary64] embeds this arithmetic of the two classes with the primitive
    floats of the kernel, which are IEEE 754 binary64 with the same rounding.

    A number is a binary64 value: a Python [float], or an [int] or [long]
    below 2^53 in magnitude, which is the float it is converted to, without
    rounding, when it meets a float.  An argument [n_elec] is [None] or a
    number.  An array is a [float64] array, given by its values: the copy
    [density] makes and the objects [fukui_function] hands out are told
    apart in [LinearLocalTool] above, not here.  A method returns its result
    together with the warnings it handed to [log.warn]. *)
Module Binary64.
Import Floats.
#[local] Set Warnings "-inexact-float".
Local Open Scope float_scope.

(** A decimal literal below denotes the binary64 value nearest to it, as it
    does in Python. *)

(** [x] is not NaN: it is equal to itself. *)
Definition is_number (x : float) : Prop := (x =? x) = true.

(** One call of [log.warn]: the quantity named by the message and the three
    values formatted into it. *)
Record advisory : Type := Advisory {
  a_quantity : quantity;
  a_n_elec : option float;
  a_low : float;
  a_high : float
}.

(** The test guarding the warning on a number:
    [not n0 - 1 <= n_elec <= n0 + 1]. *)
Definition outside (n0 n_elec : float) : bool :=
  negb ((n0 - 1 <=? n_elec) && (n_elec <=? n0 + 1)).

(** What a query hands to [log.warn].  In Python 2, [None] is below every
    number, so the test holds when [n_elec] is omitted. *)
Definition warn_outside (q : quantity) (n0 : float) (n_elec : option float)
    : list advisory :=
  match n_elec with
  | Some n =>
      if outside n0 n then [Advisory q (Some n) (n0 - 1) (n0 + 1)] else []
  | None => [Advisory q None (n0 - 1) (n0 + 1)]
  end.

Module LinearGlobalTool.

(** The attributes of an instance the energy is computed from. *)
Record t : Type := {
  _n0 : float;
  _n_max : option float;
  _params : list float
}.

(** [__init__] from its second statement on: [n_ref], [energy_m],
    [energy_0] and [energy_p] are what [check_dict_energy] returned, and the
    constructor of the base class stores [n_ref] as [_n0] and [n_max] as
    [_n_max]. *)
Definition __init__ (n_ref energy_m energy_0 energy_p : float) : t :=
  let param_b := energy_0 - energy_m in
  let param_a := energy_0 - n_ref * param_b in
  let param_b_prime := energy_p - energy_0 in
  let param_a_prime := energy_0 - n_ref * param_b_prime in
  let n_max := if energy_0 <? energy_p then Some n_ref else None in
  {| _n0 := n_ref;
     _n_max := n_max;
     _params := [param_a; param_b; param_a_prime; param_b_prime] |}.

Definition energy (self : t) (n_elec : option float)
    : result (option float) * list advisory :=
  match n_elec with
  | None => (Ok None, [])
  | Some n =>
      if n <? 0 then
        (Raise (ValueError "Number of electrons cannot be negativ! n_elec={0}"),
         [])
      else
        let warnings := warn_outside Energy (_n0 self) n_elec in
        if n <=? _n0 self then
          match _params self !! 0%nat, _params self !! 1%nat with
          | Some p0, Some p1 => (Ok (Some (p0 + n * p1)), warnings)
          | _, _ => (Raise IndexError, warnings)
          end
        else if _n0 self <? n then
          match _params self !! 2%nat, _params self !! 3%nat with
          | Some p2, Some p3 => (Ok (Some (p2 + n * p3)), warnings)
          | _, _ => (Raise IndexError, warnings)
          end
        else
          (Raise (ValueError "Argument n_elec should be a positive real number!"),
           warnings)
  end.

End LinearGlobalTool.

(** An element-wise binary operation on two arrays, with numpy's broadcasting
    of an array of length one; incompatible shapes raise [ValueError]. *)
Definition np_binop (f : float → float → float) (xs ys : list float)
    : result (list float) :=
  if bool_decide (length xs = length ys) then Ok (zip_with f xs ys)
  else
    match xs, ys with
    | [x], _ => Ok (map (f x) ys)
    | _, [y] => Ok (map (λ x, f x y) xs)
    | _, _ => Raise (ValueError "operands could not be broadcast together")
    end.

(** [out += ys]: the shape of the output is fixed, only [ys] may be
    broadcast. *)
Definition np_iadd (out ys : list float) : result (list float) :=
  if bool_decide (length ys = length out) then
    Ok (zip_with PrimFloat.add out ys)
  else
    match ys with
    | [y] => Ok (map (λ x, x + y) out)
    | _ => Raise (ValueError "non-broadcastable output operand")
    end.

(** [array * c] and [c * array] for a scalar [c]. *)
Definition np_scale_r (xs : list float) (c : float) : list float :=
  map (λ x, x * c) xs.
Definition np_scale_l (c : float) (xs : list float) : list float :=
  map (λ x, c * x) xs.

Module LinearLocalTool.

Record t : Type := {
  _n0 : float;
  _dens_m : list float;
  _dens_0 : list float;
  _dens_p : list float;
  _ff_plus : list float;
  _ff_minus : list float;
  _ff_zero : list float
}.

(** [__init__] once the keys of the dictionary have passed its checks and
    the constructor of the base class has stored [n0] and the densities of
    [n0 - 1], [n0] and [n0 + 1] electrons: the three assignments that
    compute the Fukui functions. *)
Definition __init__ (n0 : float) (dens_m dens_0 dens_p : list float)
    : result t :=
  match np_binop PrimFloat.sub dens_p dens_0 with
  | Raise e => Raise e
  | Ok ff_plus =>
      match np_binop PrimFloat.sub dens_0 dens_m with
      | Raise e => Raise e
      | Ok ff_minus =>
          match np_binop PrimFloat.sub dens_p dens_m with
          | Raise e => Raise e
          | Ok diff =>
              Ok {| _n0 := n0;
                    _dens_m := dens_m; _dens_0 := dens_0; _dens_p := dens_p;
                    _ff_plus := ff_plus; _ff_minus := ff_minus;
                    _ff_zero := np_scale_l 0.5 diff |}
          end
      end
  end.

(** The second check that opens [density] and [fukui_function]; the first
    one, [isinstance], holds of every number. *)
Definition negative (n_elec : option float) : bool :=
  match n_elec with
  | Some n => n <? 0
  | None => false
  end.

Definition density (self : t) (n_elec : option float)
    : result (list float) * list advisory :=
  if negative n_elec then
    (Raise (ValueError "Number of electrons cannot be negativ! n_elec={0}"),
     [])
  else
    let warnings := warn_outside ElectronDensity (_n0 self) n_elec in
    let rho := _dens_0 self in
    match n_elec with
    | Some n =>
        if negb (n =? _n0 self) then
          if n <? _n0 self then
            (np_iadd rho (np_scale_r (_ff_minus self) (n - _n0 self)),
             warnings)
          else if _n0 self <? n then
            (np_iadd rho (np_scale_r (_ff_plus self) (n - _n0 self)),
             warnings)
          else (Ok rho, warnings)
        else (Ok rho, warnings)
    | None => (Ok rho, warnings)
    end.

Definition fukui_function (self : t) (n_elec : option float)
    : result (list float) * list advisory :=
  if negative n_elec then
    (Raise (ValueError "Number of electrons cannot be negative! n_elec={0}"),
     [])
  else
    let warnings := warn_outside FukuiFunction (_n0 self) n_elec in
    match n_elec with
    | None => (Ok (_ff_zero self), warnings)
    | Some n =>
        if n =? _n0 self then (Ok (_ff_zero self), warnings)
        else if n <? _n0 self then (Ok (_ff_minus self), warnings)
        else if _n0 self <? n then (Ok (_ff_plus self), warnings)
        else (Raise UnboundLocalError, warnings)
    end.

End LinearLocalTool.

(** *** Vocabulary of the specification, in binary64 *)

(** Element-wise sum, difference and scaling of fields, each operation
    rounded. *)
Definition vadd (xs ys : list float) : list float :=
  zip_with PrimFloat.add xs ys.
Definition vsub (xs ys : list float) : list float :=
  zip_with PrimFloat.sub xs ys.
Definition vscale (xs : list float) (c : float) : list float :=
  map (λ x, x * c) xs.

(** [n_elec] is omitted, or a number that is not negative. *)
Definition admissible (n_elec : option float) : Prop :=
  match n_elec with
  | Some n => (0 <=? n) = true
  | None => True
  end.

(** The density of the linear model at [n_elec] electrons. *)
Definition linear_density (n0 : float) (n_elec : option float)
    (rho_0 f_minus f_plus : list float) : list float :=
  match n_elec with
  | Some n =>
      if n <? n0 then vadd rho_0 (vscale f_minus (n - n0))
      else if n0 <? n then vadd rho_0 (vscale f_plus (n - n0))
      else rho_0
  | None => rho_0
  end.

(** The field [fukui_function] selects at [n_elec] electrons. *)
Definition select_ff (n0 : float) (n_elec : option float)
    (f_minus f_plus f_zero : list float) : list float :=
  match n_elec with
  | Some n =>
      if n <? n0 then f_minus else if n0 <? n then f_plus else f_zero
  | None => f_zero
  end.

(** The average (f_plus + f_minus)/2, element by element. *)
Definition average (f_plus f_minus : list float) : list float :=
  zip_with (λ p q, (p + q) / 2) f_plus f_minus.

(** The model of three densities on a grid of two points, for 4, 5 and 6
    electrons, as [__init__ 5 [1; 2] [3; 5] [7; 11]] computes it. *)
Definition worked_local_binary64 : LinearLocalTool.t :=
  {| LinearLocalTool._n0 := 5;
     LinearLocalTool._dens_m := [1; 2];
     LinearLocalTool._dens_0 := [3; 5];
     LinearLocalTool._dens_p := [7; 11];
     LinearLocalTool._ff_plus := [4; 6];
     LinearLocalTool._ff_minus := [2; 3];
     LinearLocalTool._ff_zero := [3; 4.5] |}.

End Binary64.

(** * Properties *)

(** ** Numbers and comparisons *)


Lemma minus_half_is : qc (-1) 2 = - (1 / 2).
Proof. apply Qc_is_canon. reflexivity. Qed.

Lemma two_neq_zero : (2 : Qc) ≠ 0.
Proof. intros H. apply (f_equal this) in H. discriminate H. Qed.

Lemma num_not_None v q : num_of v = Some q → is_None v = false.
Proof. by destruct v. Qed.

Lemma num_isinstance v q : num_of v = Some q → isinstance_number v = true.
Proof. by destruct v. Qed.

Lemma py_lt_num v q x : num_of v = Some q → py_lt v x = bool_decide (q < x).
Proof. unfold py_lt. by intros ->. Qed.

Lemma py_le_num v q x : num_of v = Some q → py_le v x = bool_decide (q ≤ x).
Proof. unfold py_le. by intros ->. Qed.

Lemma py_gt_num v q x : num_of v = Some q → py_gt v x = bool_decide (x < q).
Proof. unfold py_gt. by intros ->. Qed.


Lemma py_eq_num v q x : num_of v = Some q → py_eq v x = bool_decide (q = x).
Proof. unfold py_eq. by intros ->. Qed.

(** A number is below, at or above another one. *)
Lemma Qc_trichotomy (x y : Qc) : x < y ∨ x = y ∨ y < x.
Proof.
  destruct (Qclt_le_dec x y) as [H|H]; [by left|right].
  destruct (Qcle_lt_or_eq _ _ H) as [H'|H']; [by right|by left].
Qed.

(** ** The monad *)

Lemma bind_ok {A B} (c : M A) (k : A → M B) w a w' :
  c w = (Ok a, w') → bind c k w = k a w'.
Proof. unfold bind. by intros ->. Qed.

Lemma bind_raise {A B} (c : M A) (k : A → M B) w e w' :
  c w = (Raise e, w') → bind c k w = (Raise e, w').
Proof. unfold bind. by intros ->. Qed.

Lemma new_array_run xs w :
  new_array xs w = (Ok (length (heap w)), World (heap w ++ [xs]) (log w)).
Proof. reflexivity. Qed.

(** Equality of concrete fields: rationals in lowest terms are equal when
    their fractions are. *)
Ltac qc_eq :=
  repeat match goal with
         | |- Some _ = Some _ => f_equal
         | |- _ :: _ = _ :: _ => f_equal
         | |- @eq Qc _ _ => apply Qc_is_canon; reflexivity
         | |- @nil _ = @nil _ => reflexivity
         end.

(** One step of a run: the first computation of a [bind] returned. *)
Ltac run H := rewrite (bind_ok _ _ _ _ _ H); cbv beta.

Lemma getitem_ok l i w xs x :
  heap w !! l = Some xs → xs !! i = Some x → getitem l i w = (Ok x, w).
Proof.
  intros Hl Hi. unfold getitem, bind, read_array. by rewrite Hl, Hi.
Qed.

(** ** Dictionaries *)


Lemma sorted_keys_length {V} (d : gmap Qc V) :
  length (sorted_keys d) = size d.
Proof.
  unfold sorted_keys. rewrite merge_sort_Permutation, length_fmap.
  apply length_map_to_list.
Qed.

Lemma check_dict_energy_Ok d n0 e_m e_0 e_p :
  check_dict_energy d = Ok (n0, e_m, e_0, e_p) →
  sorted_keys d = [n0 - 1; n0; n0 + 1] ∧
  d !! (n0 - 1) = Some e_m ∧ d !! n0 = Some e_0 ∧ d !! (n0 + 1) = Some e_p.
Proof.
  unfold check_dict_energy. case_bool_decide; [done|].
  destruct (sorted_keys d) as [|k0 [|k1 [|k2 [|]]]] eqn:Hk; try done.
  case_bool_decide as Hc; [done|].
  injection Hc as -> ->.
  destruct (d !! k0) eqn:H0; [|done].
  destruct (d !! (k0 + 1)) eqn:H1; [|done].
  destruct (d !! (k0 + 2)) eqn:H2; [|done].
  intros [= <- <- <- <-].
  replace (k0 + 1 - 1) with k0 by ring.
  replace (k0 + 1 + 1) with (k0 + 2) by ring. done.
Qed.

(** ** The global tool: what the constructor leaves behind *)

Section GlobalTool.
Import LinearGlobalTool.

Lemma warn_outside_run q self n_elec w :
  warn_outside q self n_elec w = (Ok tt, warned q self n_elec w).
Proof. unfold warn_outside, warned. by destruct (outside self n_elec). Qed.

Lemma heap_warned q self n_elec w : heap (warned q self n_elec w) = heap w.
Proof. unfold warned. by destruct (outside self n_elec). Qed.

Lemma init_inv d w0 m w1 :
  __init__ d w0 = (Ok m, w1) →
  ∃ e_m e_0 e_p,
    is_triple d (_n0 m) e_m e_0 e_p ∧
    sorted_keys d = [_n0 m - 1; _n0 m; _n0 m + 1] ∧
    _ip m = e_m - e_0 ∧ _ea m = e_0 - e_p ∧
    _n_max m = (if bool_decide (e_0 < e_p) then Some (_n0 m) else None) ∧
    dict_energy m = d ∧
    _params m = length (heap w0) ∧
    w1 = World (heap w0 ++ [[spec_a (_n0 m) e_m e_0; spec_b e_m e_0;
                             spec_a' (_n0 m) e_0 e_p; spec_b' e_0 e_p]])
               (log w0).
Proof.
  unfold __init__, bind, lift.
  destruct (check_dict_energy d) as [[[[n0 e_m] e_0] e_p]|e] eqn:Hc; [|done].
  apply check_dict_energy_Ok in Hc as (Hs & Hm & H0 & Hp).
  unfold new_array, ret. simpl. intros [= <- <-]. simpl.
  exists e_m, e_0, e_p. by repeat split.
Qed.

Lemma init_params d w0 m w1 e_m e_0 e_p :
  __init__ d w0 = (Ok m, w1) →
  is_triple d (_n0 m) e_m e_0 e_p →
  heap w1 !! _params m =
    Some [spec_a (_n0 m) e_m e_0; spec_b e_m e_0;
          spec_a' (_n0 m) e_0 e_p; spec_b' e_0 e_p].
Proof.
  intros (e_m' & e_0' & e_p' & (Hm & H0 & Hp) & _ & _ & _ & _ & _ & Hl & ->)%init_inv
    (Hm' & H0' & Hp').
  rewrite Hm in Hm'. rewrite H0 in H0'. rewrite Hp in Hp'.
  injection Hm' as ->. injection H0' as ->. injection Hp' as ->.
  rewrite Hl. simpl. by rewrite list_lookup_middle.
Qed.

(** *** Evaluation of [energy] and [energy_derivative] on a number *)

Lemma energy_run m w v N a b a' b' :
  heap w !! _params m = Some [a; b; a'; b'] →
  num_of v = Some N → 0 ≤ N →
  energy m v w =
    (Ok (Some (if bool_decide (N ≤ _n0 m) then a + N * b else a' + N * b')),
     warned Energy m v w).
Proof.
  intros Hp Hv HN. unfold energy.
  rewrite (num_not_None _ _ Hv), (py_lt_num _ _ _ Hv).
  rewrite (bool_decide_eq_false_2 (N < 0)) by by apply Qcle_not_lt.
  rewrite (bind_ok _ _ _ _ _ (warn_outside_run _ _ _ _)).
  rewrite <-(heap_warned Energy m v w) in Hp.
  rewrite (py_le_num _ _ _ Hv), (py_gt_num _ _ _ Hv).
  case_bool_decide as Hle.
  - rewrite (bind_ok _ _ _ _ _ (getitem_ok _ 0 _ _ _ Hp eq_refl)).
    rewrite (bind_ok _ _ _ _ _ (getitem_ok _ 1 _ _ _ Hp eq_refl)).
    unfold py_mul. rewrite Hv. done.
  - rewrite (bool_decide_eq_true_2 (_n0 m < N)) by by apply Qcnot_le_lt.
    rewrite (bind_ok _ _ _ _ _ (getitem_ok _ 2 _ _ _ Hp eq_refl)).
    rewrite (bind_ok _ _ _ _ _ (getitem_ok _ 3 _ _ _ Hp eq_refl)).
    unfold py_mul. rewrite Hv. done.
Qed.

Lemma energy_derivative_run m w v N z a b a' b' :
  heap w !! _params m = Some [a; b; a'; b'] →
  num_of v = Some N → 0 ≤ N → (0 < z)%Z →
  energy_derivative m v (PInt z) w =
    (Ok (if bool_decide (N = _n0 m) then None
         else if bool_decide (2 ≤ z)%Z then Some 0
         else if bool_decide (N < _n0 m) then Some b
         else Some b'),
     warned EnergyDerivative m v w).
Proof.
  intros Hp Hv HN Hz. unfold energy_derivative.
  rewrite (num_not_None _ _ Hv), (py_lt_num _ _ _ Hv).
  rewrite (bool_decide_eq_false_2 (N < 0)) by by apply Qcle_not_lt.
  rewrite (bind_ok _ _ _ _ _ (warn_outside_run _ _ _ _)).
  rewrite <-(heap_warned EnergyDerivative m v w) in Hp.
  unfold py_gt at 1. simpl.
  rewrite (bool_decide_eq_true_2 (0 < Qc_of_Z z))
    by (rewrite <-Z2Qc_inj_0; by apply (proj1 (Z2Qc_inj_lt 0 z))).
  simpl. rewrite (py_eq_num _ _ _ Hv).
  case_bool_decide as Heq; [done|].
  unfold py_ge. simpl.
  rewrite <-Z2Qc_inj_2.
  rewrite (bool_decide_ext _ _ (symmetry (Z2Qc_inj_le 2 z))).
  case_bool_decide as H2; [done|].
  rewrite (py_lt_num _ _ _ Hv), (py_gt_num _ _ _ Hv).
  case_bool_decide as Hlt.
  - by rewrite (bind_ok _ _ _ _ _ (getitem_ok _ 1 _ _ _ Hp eq_refl)).
  - rewrite (bool_decide_eq_true_2 (_n0 m < N)).
    + by rewrite (bind_ok _ _ _ _ _ (getitem_ok _ 3 _ _ _ Hp eq_refl)).
    + destruct (Qc_trichotomy N (_n0 m)) as [?|[?|?]]; done.
Qed.

End GlobalTool.

(** ** The global tool: the claims *)

Section GlobalClaims.
Import LinearGlobalTool.

Lemma worked_init :
  __init__ worked_triple empty_world = (Ok worked_model, worked_world).
Proof. vm_compute. reflexivity. Qed.

Lemma worked_n0 : _n0 worked_model = qc 5 1.
Proof. vm_compute. reflexivity. Qed.

Lemma worked_is_triple :
  is_triple worked_triple (_n0 worked_model)
    (qc (-14) 1) (qc (-15) 1) (qc (-31) 2).
Proof. vm_compute. done. Qed.

(** C2: on a model built from a triple, for every number N >= 0 and every
    positive integer [order], [energy_derivative(N, order)] returns [None]
    when N == N0, whatever the order; otherwise 0 when order >= 2;
    otherwise b when N < N0 and b' when N > N0. *)
Theorem energy_derivative_piecewise d w0 m w1 e_m e_0 e_p w v N z :
  __init__ d w0 = (Ok m, w1) →
  is_triple d (_n0 m) e_m e_0 e_p →
  heap w !! _params m = heap w1 !! _params m →
  num_of v = Some N →
  0 ≤ N →
  (0 < z)%Z →
  ∃ w', heap w' = heap w ∧
    energy_derivative m v (PInt z) w =
      (Ok (if bool_decide (N = _n0 m) then None
           else if bool_decide (2 ≤ z)%Z then Some 0
           else if bool_decide (N < _n0 m) then Some (spec_b e_m e_0)
           else Some (spec_b' e_0 e_p)), w')
    ∧ (N ≠ _n0 m → ¬ N < _n0 m → _n0 m < N).
Proof.
  intros Hinit Ht Hw Hv HN Hz.
  rewrite (init_params _ _ _ _ _ _ _ Hinit Ht) in Hw.
  exists (warned EnergyDerivative m v w).
  split; [apply heap_warned|]. split.
  - apply (energy_derivative_run _ _ _ _ _ _ _ _ _ Hw Hv HN Hz).
  - intros Hne Hlt. by destruct (Qc_trichotomy N (_n0 m)) as [?|[?|?]].
Qed.

Lemma energy_derivative_piecewise_witness :
  ∃ w', heap w' = heap worked_world ∧
    energy_derivative worked_model (PFloat (qc 9 2)) default_order
      worked_world =
      (Ok (Some (spec_b (qc (-14) 1) (qc (-15) 1))), w')
    ∧ (qc 9 2 ≠ _n0 worked_model → ¬ qc 9 2 < _n0 worked_model →
       _n0 worked_model < qc 9 2).
Proof.
  assert (H0 : 0 ≤ qc 9 2) by (by vm_compute).
  assert (H1 : (0 < 1)%Z) by lia.
  exact (energy_derivative_piecewise _ _ _ _ _ _ _ worked_world
           (PFloat (qc 9 2)) _ 1%Z worked_init worked_is_triple
           eq_refl eq_refl H0 H1).
Defined.

(** C3 as stated does not hold: with IP = E0 - E(N0-1) the value -IP of the
    worked triple {4: -14.0, 5: -15.0, 6: -15.5} is 1.0, so [mu_minus]
    cannot be both -IP and -1.0. *)
Lemma mu_sign_convention_counterexample :
  ¬ (mu_minus worked_model = - (qc (-15) 1 - qc (-14) 1)
     ∧ mu_plus worked_model = - (qc (-31) 2 - qc (-15) 1)
     ∧ mu_minus worked_model = qc (-1) 1
     ∧ mu_plus worked_model = qc 1 2).
Proof.
  intros (H1 & _ & H3 & _). rewrite H3 in H1.
  apply (f_equal this) in H1. vm_compute in H1. discriminate H1.
Qed.

(** C3, amended: [mu_minus] is -IP and [mu_plus] is -EA for the ionization
    potential IP = E(N0-1) - E0 and the electron affinity EA = E0 - E(N0+1),
    that is [mu_minus] = E0 - E(N0-1) and [mu_plus] = E(N0+1) - E0; on the
    worked triple {4: -14.0, 5: -15.0, 6: -15.5}, [mu_minus] = -1.0 and
    [mu_plus] = -0.5. *)
Theorem mu_minus_plus_from_triple d w0 m w1 e_m e_0 e_p :
  __init__ d w0 = (Ok m, w1) →
  is_triple d (_n0 m) e_m e_0 e_p →
  (mu_minus m = - _ip m ∧ _ip m = e_m - e_0 ∧ mu_minus m = e_0 - e_m)
  ∧ (mu_plus m = - _ea m ∧ _ea m = e_0 - e_p ∧ mu_plus m = e_p - e_0)
  ∧ (d = worked_triple →
     mu_minus m = qc (-1) 1 ∧ mu_plus m = qc (-1) 2).
Proof.
  intros Hinit (Hm & H0 & Hp).
  destruct (init_inv _ _ _ _ Hinit)
    as (e_m' & e_0' & e_p' & (Hm' & H0' & Hp') & Hs & Hip & Hea & _).
  rewrite Hm in Hm'. rewrite H0 in H0'. rewrite Hp in Hp'.
  injection Hm' as <-. injection H0' as <-. injection Hp' as <-.
  unfold mu_minus, mu_plus. rewrite Hip, Hea.
  repeat split; try ring.
  - subst d. assert (Hn : _n0 m = qc 5 1).
    { assert (Hk : sorted_keys worked_triple = [qc 4 1; qc 5 1; qc 6 1])
        by (vm_compute; reflexivity).
      rewrite Hk in Hs. by injection Hs as _ <- _. }
    pose proof worked_n0 as Hn'.
    rewrite Hn in Hm, H0.
    destruct worked_is_triple as (Hm5 & H05 & _).
    rewrite Hn' in Hm5, H05. rewrite Hm5 in Hm. rewrite H05 in H0.
    injection Hm as <-. injection H0 as <-.
    apply Qc_is_canon. reflexivity.
  - subst d. assert (Hn : _n0 m = qc 5 1).
    { assert (Hk : sorted_keys worked_triple = [qc 4 1; qc 5 1; qc 6 1])
        by (vm_compute; reflexivity).
      rewrite Hk in Hs. by injection Hs as _ <- _. }
    pose proof worked_n0 as Hn'.
    rewrite Hn in Hp, H0.
    destruct worked_is_triple as (_ & H05 & Hp5).
    rewrite Hn' in Hp5, H05. rewrite Hp5 in Hp. rewrite H05 in H0.
    injection Hp as <-. injection H0 as <-.
    apply Qc_is_canon. reflexivity.
Qed.

Lemma mu_minus_plus_from_triple_witness :
  (mu_minus worked_model = - _ip worked_model
   ∧ _ip worked_model = qc (-14) 1 - qc (-15) 1
   ∧ mu_minus worked_model = qc (-15) 1 - qc (-14) 1)
  ∧ (mu_plus worked_model = - _ea worked_model
     ∧ _ea worked_model = qc (-15) 1 - qc (-31) 2
     ∧ mu_plus worked_model = qc (-31) 2 - qc (-15) 1)
  ∧ (worked_triple = worked_triple →
     mu_minus worked_model = qc (-1) 1 ∧ mu_plus worked_model = qc (-1) 2).
Proof.
  exact (mu_minus_plus_from_triple _ _ _ _ _ _ _ worked_init
           worked_is_triple).
Defined.

(** C4: [mu_zero] is the average of [mu_plus] and [mu_minus], that is
    -(IP + EA)/2. *)
Theorem mu_zero_is_average (m : t) :
  mu_zero m = (mu_plus m + mu_minus m) / 2
  ∧ mu_zero m = - ((_ip m + _ea m) / 2).
Proof.
  unfold mu_zero, mu_plus, mu_minus. rewrite minus_half_is.
  split; field; apply two_neq_zero.
Qed.

End GlobalClaims.

(** ** The local tool: the constructor *)

Section LocalTool.
Import LinearLocalTool.

Lemma warn_outside_local q self n_elec w :
  warn_outside q self n_elec w = (Ok tt, warned q self n_elec w).
Proof. unfold warn_outside, warned. by destruct (outside self n_elec). Qed.

Lemma heap_warned_local q self n_elec w :
  heap (warned q self n_elec w) = heap w.
Proof. unfold warned. by destruct (outside self n_elec). Qed.

Lemma forallb_nonneg (ks : list Qc) :
  forallb (λ key, bool_decide (0 ≤ key)) ks = true ↔ Forall (λ k, 0 ≤ k) ks.
Proof.
  induction ks as [|k ks IH]; simpl.
  - split; [constructor|done].
  - rewrite andb_true_iff, IH, bool_decide_eq_true, Forall_cons. done.
Qed.

Lemma np_binop_same f xs ys :
  length xs = length ys → np_binop f xs ys = Ok (zip_with f xs ys).
Proof. intros H. unfold np_binop. by rewrite bool_decide_eq_true_2. Qed.

Lemma np_sub_same a b xs ys w :
  heap w !! a = Some xs → heap w !! b = Some ys → length xs = length ys →
  np_sub a b w = (Ok (vsub xs ys), w).
Proof.
  intros Ha Hb Hl. unfold np_sub, bind, read_array, lift.
  by rewrite Ha, Hb, np_binop_same.
Qed.

Lemma length_vsub xs ys :
  length xs = length ys → length (vsub xs ys) = length ys.
Proof. intros H. unfold vsub. rewrite length_zip_with. lia. Qed.

Lemma init_ok d w n0 l_m l_0 l_p r_m r_0 r_p :
  size d = 3%nat →
  Forall (λ k, 0 ≤ k) (keys d) →
  sorted_keys d = [n0 - 1; n0; n0 + 1] →
  ¬ n0 < 1 →
  is_triple d n0 l_m l_0 l_p →
  heap w !! l_m = Some r_m →
  heap w !! l_0 = Some r_0 →
  heap w !! l_p = Some r_p →
  length r_m = length r_0 →
  length r_p = length r_0 →
  __init__ d w =
    (Ok {| _n0 := n0; _dens_m := l_m; _dens_0 := l_0; _dens_p := l_p;
           _ff_plus := length (heap w);
           _ff_minus := S (length (heap w));
           _ff_zero := S (S (length (heap w))) |},
     World (heap w ++ [vsub r_p r_0; vsub r_0 r_m;
                       vscale half (vsub r_p r_m)]) (log w)).
Proof.
  intros Hsz Hall Hs Hn1 (Hm & H0 & Hp) Hrm Hr0 Hrp Hlm Hlp.
  unfold __init__.
  rewrite (bool_decide_eq_false_2 (size d ≠ 3%nat)) by (by intros []).
  apply forallb_nonneg in Hall. rewrite Hall. simpl.
  rewrite Hs. simpl. unfold bind at 1. unfold ret at 1.
  rewrite (bool_decide_eq_false_2 (n0 < 1)) by done.
  rewrite (bool_decide_eq_false_2 (_ ≠ _)) by (by intros []).
  assert (E0 : BaseLocalTool__init__ d n0 w = (Ok (l_m, l_0, l_p), w)).
  { unfold BaseLocalTool__init__, dict_get, bind, lift, ret.
    by rewrite H0, Hm, Hp. }
  set (w1 := World (heap w ++ [vsub r_p r_0]) (log w)).
  set (w2 := World (heap w1 ++ [vsub r_0 r_m]) (log w1)).
  assert (E1 : np_sub l_p l_0 w = (Ok (vsub r_p r_0), w))
    by (by apply np_sub_same).
  assert (E2 : np_sub l_0 l_m w1 = (Ok (vsub r_0 r_m), w1)).
  { apply np_sub_same; simpl; [by apply lookup_app_l_Some ..|done]. }
  assert (E3 : np_sub l_p l_m w2 = (Ok (vsub r_p r_m), w2)).
  { apply np_sub_same; simpl;
      [by do 2 apply lookup_app_l_Some ..|congruence]. }
  run E0. run E1. run (new_array_run (vsub r_p r_0) w). fold w1.
  run E2. run (new_array_run (vsub r_0 r_m) w1). fold w2.
  run E3. run (new_array_run (np_scale_l half (vsub r_p r_m)) w2).
  unfold ret, w2, w1. simpl.
  rewrite !length_app. simpl. rewrite <-!app_assoc. simpl.
  repeat f_equal; lia.
Qed.

Lemma sorted_keys_three {V} (d : gmap Qc V) :
  size d = 3%nat → ∃ k0 k1 k2, sorted_keys d = [k0; k1; k2].
Proof.
  intros Hsz. pose proof (sorted_keys_length d) as Hl. rewrite Hsz in Hl.
  destruct (sorted_keys d) as [|k0 [|k1 [|k2 [|]]]]; try done.
  by exists k0, k1, k2.
Qed.

Lemma init_raise d w :
  invalid_density_input d →
  ∃ msg, __init__ d w = (Raise (ValueError msg), w).
Proof.
  intros Hbad. unfold __init__.
  destruct (bool_decide (size d ≠ 3%nat)
            || negb (forallb (λ key, bool_decide (0 ≤ key)) (keys d)))
    eqn:E1; [by eexists|].
  apply orb_false_elim in E1 as [Hsz Hall].
  apply bool_decide_eq_false in Hsz. apply dec_stable in Hsz.
  apply negb_false_iff, forallb_nonneg in Hall.
  destruct (sorted_keys_three d Hsz) as (k0 & k1 & k2 & Hs).
  rewrite Hs. simpl. unfold bind at 1. unfold ret at 1.
  case_bool_decide as Hn1; [by eexists|].
  case_bool_decide as Hc; [by eexists|].
  exfalso. destruct Hbad as [H|[(k & Hk & Hneg)|(n0 & Hn0 & H)]].
  - done.
  - rewrite Forall_forall in Hall. by apply (Qclt_not_le _ _ Hneg), Hall.
  - rewrite Hs in Hn0. injection Hn0 as <-. rewrite Hs in H.
    destruct H as [H|H]; done.
Qed.

Lemma density_input_cases d :
  invalid_density_input d
  ∨ ∃ n0, size d = 3%nat ∧ Forall (λ k, 0 ≤ k) (keys d)
          ∧ sorted_keys d = [n0 - 1; n0; n0 + 1] ∧ ¬ n0 < 1.
Proof.
  destruct (decide (size d = 3%nat)) as [Hsz|Hsz]; [|left; by left].
  destruct (decide (Forall (λ k, 0 ≤ k) (keys d))) as [Hall|Hall].
  2:{ left. right. left.
      apply not_Forall_Exists in Hall; [|apply _].
      apply Exists_exists in Hall as (k & Hk & Hneg).
      exists k. split; [done|]. by apply Qcnot_le_lt. }
  destruct (sorted_keys_three d Hsz) as (k0 & k1 & k2 & Hs).
  destruct (decide (k1 < 1)) as [Hn1|Hn1].
  { left. right. right. exists k1. rewrite Hs. split; [done|]. by left. }
  destruct (decide ([k0; k1; k2] = [k1 - 1; k1; k1 + 1])) as [E|E].
  - right. exists k1. by rewrite Hs, E.
  - left. right. right. exists k1. rewrite Hs. split; [done|]. by right.
Qed.



Lemma heap_prefix_app (h new : list (list Qc)) : h `prefix_of` h ++ new.
Proof. by exists new. Qed.


End LocalTool.

(** ** Queries and the store *)

Section Frame.

Lemma keeps_heap_ret {A} (a : A) : keeps_heap (ret a).
Proof. by intros w. Qed.

Lemma keeps_heap_raise {A} (e : exn) : keeps_heap (@raise A e).
Proof. by intros w. Qed.

Lemma keeps_heap_lift {A} (r : result A) : keeps_heap (lift r).
Proof. by intros w. Qed.

Lemma keeps_heap_bind {A B} (c : M A) (k : A → M B) :
  keeps_heap c → (∀ a, keeps_heap (k a)) → keeps_heap (bind c k).
Proof.
  intros Hc Hk w. unfold bind. specialize (Hc w).
  destruct (c w) as [[a|e] w']; simpl in *; [|done].
  by rewrite Hk.
Qed.

Lemma keeps_heap_log_warn x : keeps_heap (log_warn x).
Proof. by intros w. Qed.

Lemma keeps_heap_read_array l : keeps_heap (read_array l).
Proof. intros w. unfold read_array. by destruct (heap w !! l). Qed.

Lemma keeps_heap_getitem l i : keeps_heap (getitem l i).
Proof.
  apply keeps_heap_bind; [apply keeps_heap_read_array|].
  intros xs. destruct (xs !! i); [apply keeps_heap_ret|apply keeps_heap_raise].
Qed.

Lemma keeps_heap_py_mul v x : keeps_heap (py_mul v x).
Proof.
  unfold py_mul.
  destruct (num_of v); [apply keeps_heap_ret|apply keeps_heap_raise].
Qed.

Lemma keeps_heap_py_sub v x : keeps_heap (py_sub v x).
Proof.
  unfold py_sub.
  destruct (num_of v); [apply keeps_heap_ret|apply keeps_heap_raise].
Qed.

Lemma keeps_heap_warn_global q m v :
  keeps_heap (LinearGlobalTool.warn_outside q m v).
Proof.
  unfold LinearGlobalTool.warn_outside.
  destruct (LinearGlobalTool.outside m v);
    [apply keeps_heap_log_warn|apply keeps_heap_ret].
Qed.

Lemma keeps_heap_warn_local q m v :
  keeps_heap (LinearLocalTool.warn_outside q m v).
Proof.
  unfold LinearLocalTool.warn_outside.
  destruct (LinearLocalTool.outside m v);
    [apply keeps_heap_log_warn|apply keeps_heap_ret].
Qed.

Lemma keeps_heap_check_n_elec msg v :
  keeps_heap (LinearLocalTool.check_n_elec msg v).
Proof.
  unfold LinearLocalTool.check_n_elec.
  repeat case_match; first [apply keeps_heap_raise|apply keeps_heap_ret].
Qed.

Create HintDb keeps.
Hint Resolve keeps_heap_ret keeps_heap_raise keeps_heap_lift
  keeps_heap_log_warn keeps_heap_read_array keeps_heap_getitem
  keeps_heap_py_mul keeps_heap_py_sub keeps_heap_warn_global
  keeps_heap_warn_local keeps_heap_check_n_elec : keeps.

(** Splits a computation along its [bind]s and conditionals. *)
Ltac keeps :=
  repeat first
    [ progress eauto with keeps
    | apply keeps_heap_bind; [|intros ?]
    | match goal with |- keeps_heap (if ?b then _ else _) => destruct b end ].

Lemma energy_keeps_heap m v : keeps_heap (LinearGlobalTool.energy m v).
Proof. unfold LinearGlobalTool.energy. keeps. Qed.

Lemma energy_derivative_keeps_heap m v order :
  keeps_heap (LinearGlobalTool.energy_derivative m v order).
Proof. unfold LinearGlobalTool.energy_derivative. keeps. Qed.

Lemma fukui_function_keeps_heap m v :
  keeps_heap (LinearLocalTool.fukui_function m v).
Proof. unfold LinearLocalTool.fukui_function. keeps. Qed.

Lemma extends_heap_keeps {A} (c : M A) : keeps_heap c → extends_heap c.
Proof. intros H w. by rewrite H. Qed.

Lemma extends_heap_bind {A B} (c : M A) (k : A → M B) :
  extends_heap c → (∀ a, extends_heap (k a)) → extends_heap (bind c k).
Proof.
  intros Hc Hk w. unfold bind. specialize (Hc w).
  destruct (c w) as [[a|e] w']; simpl in *; [|done].
  trans (heap w'); [done|apply Hk].
Qed.

Lemma extends_heap_new_array xs : extends_heap (new_array xs).
Proof. intros w. apply heap_prefix_app. Qed.

Lemma insert_last (h : list (list Qc)) (x y : list Qc) :
  <[length h := y]> (h ++ [x]) = h ++ [y].
Proof.
  rewrite <-(Nat.add_0_r (length h)). by rewrite insert_app_r.
Qed.

(** [rho += ys] on the object allocated last touches that object only. *)
Lemma iadd_last h lg out ys :
  ∃ r out', iadd (length h) ys (World (h ++ [out]) lg)
            = (r, World (h ++ [out']) lg).
Proof.
  unfold iadd, bind, read_array, lift, write_array. cbn [heap log].
  rewrite (list_lookup_middle h [] out (length h) eq_refl).
  destruct (np_iadd out ys) as [r|e]; [|by eexists _, _].
  cbn [heap log]. rewrite (list_lookup_middle h [] out (length h) eq_refl).
  rewrite insert_last. by eexists _, _.
Qed.

Lemma iadd_last_same h lg out ys :
  length ys = length out →
  iadd (length h) ys (World (h ++ [out]) lg)
  = (Ok tt, World (h ++ [vadd out ys]) lg).
Proof.
  intros Hl. unfold iadd, bind, read_array, lift, write_array. cbn [heap log].
  rewrite (list_lookup_middle h [] out (length h) eq_refl).
  unfold np_iadd. rewrite bool_decide_eq_true_2 by done.
  cbn [heap log]. rewrite (list_lookup_middle h [] out (length h) eq_refl).
  by rewrite insert_last.
Qed.

(** The in-place part of [density]: it runs on the copy made just before
    and leaves the objects found before the copy alone. *)
Lemma density_add_extends ffl v n0 h lg zero :
  ∃ r x,
    (ff <- read_array ffl ;;
     dn <- py_sub v n0 ;;
     iadd (length h) (np_scale_r ff dn) ;;;
     ret (length h)) (World (h ++ [zero]) lg)
    = (r, World (h ++ [x]) lg).
Proof.
  unfold bind at 1. unfold read_array.
  destruct (heap (World (h ++ [zero]) lg) !! ffl) as [ff|]; [|by eexists _, _].
  unfold bind at 1. unfold py_sub.
  destruct (num_of v) as [q|]; [|by eexists _, _].
  unfold ret at 1. unfold bind.
  destruct (iadd_last h lg zero (np_scale_r ff (q - n0))) as (r & x & ->).
  destruct r; by eexists _, _.
Qed.

Lemma density_extends_heap m v :
  extends_heap (LinearLocalTool.density m v).
Proof.
  unfold LinearLocalTool.density.
  apply extends_heap_bind; [apply extends_heap_keeps; eauto with keeps|].
  intros _.
  apply extends_heap_bind; [apply extends_heap_keeps; eauto with keeps|].
  intros _.
  apply extends_heap_bind; [apply extends_heap_keeps; eauto with keeps|].
  intros zero w. unfold bind at 1. rewrite new_array_run.
  destruct w as [h lg]. simpl.
  destruct (negb (is_None v) && negb (py_eq v (LinearLocalTool._n0 m)));
    [|apply heap_prefix_app].
  destruct (py_lt v (LinearLocalTool._n0 m)).
  { destruct (density_add_extends (LinearLocalTool._ff_minus m) v
                (LinearLocalTool._n0 m) h lg zero) as (r & x & ->).
    apply heap_prefix_app. }
  destruct (py_gt v (LinearLocalTool._n0 m)); [|apply heap_prefix_app].
  destruct (density_add_extends (LinearLocalTool._ff_plus m) v
              (LinearLocalTool._n0 m) h lg zero) as (r & x & ->).
  apply heap_prefix_app.
Qed.

Lemma softness_extends_heap m S v :
  extends_heap (LinearLocalTool.softness m S v).
Proof.
  unfold LinearLocalTool.softness.
  repeat first
    [ apply extends_heap_new_array
    | apply extends_heap_keeps; progress eauto with keeps
    | apply extends_heap_bind; [|intros ?]
    | match goal with
      | |- extends_heap (if ?b then _ else _) => destruct b
      end ].
Qed.

End Frame.

(** ** The local tool: evaluation of the queries *)

Section LocalRuns.
Import LinearLocalTool.

Lemma init_n0 d w m w' :
  __init__ d w = (Ok m, w') →
  ∃ n0, size d = 3%nat ∧ Forall (λ k, 0 ≤ k) (keys d)
        ∧ sorted_keys d = [n0 - 1; n0; n0 + 1] ∧ ¬ n0 < 1 ∧ _n0 m = n0.
Proof.
  intros H.
  destruct (density_input_cases d) as [Hbad|(n0 & Hsz & Hall & Hs & Hn1)].
  { destruct (init_raise d w Hbad) as (msg & E). congruence. }
  exists n0. repeat (split; [done|]).
  revert H. unfold __init__.
  rewrite (bool_decide_eq_false_2 (size d ≠ 3%nat)) by (by intros []).
  apply forallb_nonneg in Hall. rewrite Hall. simpl.
  rewrite Hs. simpl. unfold bind at 1. unfold ret at 1.
  rewrite (bool_decide_eq_false_2 (n0 < 1)) by done.
  rewrite (bool_decide_eq_false_2 (_ ≠ _)) by (by intros []).
  unfold bind, ret. intros H.
  repeat case_match; simplify_eq; done.
Qed.

Lemma model_of_stored d w0 m w r_m r_0 r_p :
  model_of d w0 m w r_m r_0 r_p → stored m w r_m r_0 r_p.
Proof.
  intros (w1 & l_m & l_0 & l_p & Hinit & Ht & Hrm & Hr0 & Hrp & Hlm & Hlp & Hw).
  destruct (init_n0 _ _ _ _ Hinit) as (n0 & Hsz & Hall & Hs & Hn1 & Hn0).
  rewrite Hn0 in Ht.
  pose proof (init_ok d w0 n0 l_m l_0 l_p r_m r_0 r_p
                Hsz Hall Hs Hn1 Ht Hrm Hr0 Hrp Hlm Hlp) as E.
  rewrite Hinit in E. injection E as -> ->.
  simpl in Hw. unfold stored. simpl.
  split; [done|]. split; [done|].
  rewrite !Hw by set_solver. simpl.
  split; [by apply lookup_app_l_Some|].
  split; [by rewrite (lookup_app_r _ _ (S _)) by lia;
           replace (S _ - _)%nat with 1%nat by lia|].
  split; [by rewrite lookup_app_r by lia;
           replace (_ - _)%nat with 0%nat by lia|].
  rewrite lookup_app_r by lia.
  by replace (_ - _)%nat with 2%nat by lia.
Qed.

Lemma check_n_elec_admissible msg n0 v N w :
  admissible n0 v N → check_n_elec msg v w = (Ok tt, w).
Proof.
  unfold check_n_elec. intros [[-> _]|[Hv HN]]; [done|].
  rewrite (num_not_None _ _ Hv), (num_isinstance _ _ Hv). simpl.
  rewrite (py_lt_num _ _ _ Hv).
  by rewrite (bool_decide_eq_false_2 (N < 0)) by by apply Qcle_not_lt.
Qed.

(** The three-way dispatch of the queries on an admissible argument. *)
Lemma dispatch_cases n0 v N :
  admissible n0 v N →
  (is_None v || py_eq v n0 = true ∧ N = n0)
  ∨ (is_None v || py_eq v n0 = false ∧ num_of v = Some N
     ∧ py_lt v n0 = true ∧ N < n0)
  ∨ (is_None v || py_eq v n0 = false ∧ num_of v = Some N
     ∧ py_lt v n0 = false ∧ py_gt v n0 = true ∧ n0 < N).
Proof.
  intros [[-> ->]|[Hv HN]]; [by left|].
  rewrite (num_not_None _ _ Hv), (py_eq_num _ _ _ Hv),
    (py_lt_num _ _ _ Hv), (py_gt_num _ _ _ Hv). simpl.
  destruct (Qc_trichotomy N n0) as [Hlt|[Heq|Hgt]].
  - right. left. rewrite bool_decide_eq_false_2 by by apply Qclt_not_eq.
    by rewrite bool_decide_eq_true_2.
  - left. by rewrite bool_decide_eq_true_2.
  - right. right.
    rewrite bool_decide_eq_false_2
      by (by apply not_symmetry, Qclt_not_eq).
    rewrite (bool_decide_eq_false_2 (N < n0))
      by (by apply Qcle_not_lt, Qclt_le_weak).
    by rewrite bool_decide_eq_true_2.
Qed.

Lemma np_scale_r_vscale xs c : np_scale_r xs c = vscale c xs.
Proof. apply map_ext. intros x. apply Qcmult_comm. Qed.

Lemma fukui_function_run m w r_m r_0 r_p v N :
  stored m w r_m r_0 r_p →
  admissible (_n0 m) v N →
  ∃ l, fukui_function m v w = (Ok l, warned FukuiFunction m v w)
       ∧ heap w !! l
         = Some (select_ff (_n0 m) N (vsub r_0 r_m) (vsub r_p r_0)
                   (vscale half (vsub r_p r_m)))
       ∧ l = (if bool_decide (N < _n0 m) then _ff_minus m
              else if bool_decide (_n0 m < N) then _ff_plus m
              else _ff_zero m).
Proof.
  intros (_ & _ & _ & Hfm & Hfp & Hfz) Hv. unfold fukui_function, select_ff.
  erewrite bind_ok by exact (check_n_elec_admissible _ _ _ _ w Hv).
  run (warn_outside_local FukuiFunction m v w).
  destruct (dispatch_cases _ _ _ Hv)
    as [[-> ->]|[(-> & _ & -> & Hlt)|(-> & _ & -> & -> & Hgt)]].
  - rewrite !bool_decide_eq_false_2 by apply irreflexivity, _.
    by eexists.
  - rewrite bool_decide_eq_true_2 by done. by eexists.
  - rewrite (bool_decide_eq_false_2 (N < _n0 m))
      by (by apply Qcle_not_lt, Qclt_le_weak).
    rewrite bool_decide_eq_true_2 by done. by eexists.
Qed.

Lemma softness_run m w r_m r_0 r_p S v N :
  stored m w r_m r_0 r_p →
  admissible (_n0 m) v N →
  softness m S v w =
    (Ok (length (heap w)),
     World (heap w ++ [vscale S (select_ff (_n0 m) N (vsub r_0 r_m)
                                   (vsub r_p r_0)
                                   (vscale half (vsub r_p r_m)))])
           (log (warned LocalSoftness m v w))).
Proof.
  intros (_ & _ & _ & Hfm & Hfp & Hfz) Hv. unfold softness, select_ff.
  erewrite bind_ok by exact (check_n_elec_admissible _ _ _ _ w Hv).
  run (warn_outside_local LocalSoftness m v w).
  rewrite <-(heap_warned_local LocalSoftness m v w) in Hfm, Hfp, Hfz.
  rewrite <-(heap_warned_local LocalSoftness m v w).
  destruct (dispatch_cases _ _ _ Hv)
    as [[-> ->]|[(-> & _ & -> & Hlt)|(-> & _ & -> & -> & Hgt)]].
  - rewrite !bool_decide_eq_false_2 by apply irreflexivity, _.
    unfold bind, read_array. by rewrite Hfz.
  - rewrite bool_decide_eq_true_2 by done.
    unfold bind, read_array. by rewrite Hfm.
  - rewrite (bool_decide_eq_false_2 (N < _n0 m))
      by (by apply Qcle_not_lt, Qclt_le_weak).
    rewrite bool_decide_eq_true_2 by done.
    unfold bind, read_array. by rewrite Hfp.
Qed.

Lemma density_run m w r_m r_0 r_p v N :
  stored m w r_m r_0 r_p →
  admissible (_n0 m) v N →
  density m v w =
    (Ok (length (heap w)),
     World (heap w ++ [linear_density (_n0 m) N r_0 (vsub r_0 r_m)
                         (vsub r_p r_0)])
           (log (warned ElectronDensity m v w))).
Proof.
  intros (Hlm & Hlp & Hz & Hfm & Hfp & _) Hv. unfold density, linear_density.
  erewrite bind_ok by exact (check_n_elec_admissible _ _ _ _ w Hv).
  run (warn_outside_local ElectronDensity m v w).
  rewrite <-(heap_warned_local ElectronDensity m v w) in Hz, Hfm, Hfp.
  rewrite <-(heap_warned_local ElectronDensity m v w).
  set (w1 := warned ElectronDensity m v w) in *.
  assert (Ez : read_array (density_zero m) w1 = (Ok r_0, w1))
    by (unfold read_array, density_zero; by rewrite Hz).
  run Ez. run (new_array_run r_0 w1).
  set (w2 := World (heap w1 ++ [r_0]) (log w1)).
  rewrite <-negb_orb.
  destruct (dispatch_cases _ _ _ Hv)
    as [[-> ->]|[(-> & HN & -> & Hlt)|(-> & HN & -> & -> & Hgt)]]; simpl.
  - by rewrite !bool_decide_eq_false_2 by apply irreflexivity, _.
  - rewrite bool_decide_eq_true_2 by done.
    assert (Ef : read_array (_ff_minus m) w2 = (Ok (vsub r_0 r_m), w2)).
    { unfold read_array, w2. simpl. by rewrite (lookup_app_l_Some _ _ _ _ Hfm). }
    run Ef. unfold py_sub. rewrite HN. unfold bind at 1, ret at 1.
    unfold bind, w2. rewrite iadd_last_same.
    + by rewrite np_scale_r_vscale.
    + unfold np_scale_r. by rewrite length_map, length_vsub.
  - rewrite (bool_decide_eq_false_2 (N < _n0 m))
      by (by apply Qcle_not_lt, Qclt_le_weak).
    rewrite bool_decide_eq_true_2 by done.
    assert (Ef : read_array (_ff_plus m) w2 = (Ok (vsub r_p r_0), w2)).
    { unfold read_array, w2. simpl. by rewrite (lookup_app_l_Some _ _ _ _ Hfp). }
    run Ef. unfold py_sub. rewrite HN. unfold bind at 1, ret at 1.
    unfold bind, w2. rewrite iadd_last_same.
    + by rewrite np_scale_r_vscale.
    + unfold np_scale_r. by rewrite length_map, length_vsub.
Qed.


End LocalRuns.

(** ** The local tool: the claims *)

Section LocalClaims.
Import LinearLocalTool.

Lemma worked_local_init :
  __init__ worked_densities grid_world = (Ok worked_local, worked_local_world).
Proof. vm_compute. reflexivity. Qed.


Lemma worked_model_of :
  model_of worked_densities grid_world worked_local worked_local_world
    [qc 1 1; qc 2 1] [qc 3 1; qc 5 1] [qc 7 1; qc 11 1].
Proof.
  exists worked_local_world, 0%nat, 1%nat, 2%nat.
  split; [apply worked_local_init|].
  split; [vm_compute; by repeat split|]. by repeat split.
Qed.

Lemma worked_admissible_4 :
  admissible (_n0 worked_local) (PInt 4) (Qc_of_Z 4).
Proof. right. split; [done|by vm_compute]. Qed.

Lemma worked_admissible_None :
  admissible (_n0 worked_local) PNone (_n0 worked_local).
Proof. by left. Qed.


(** C9: on a model built from a density triple, for every scalar S and every
    admissible N (a number >= 0, or omitted), the field [softness(S, N)]
    returns is S times, element by element, the field
    [fukui_function(N)] returns. *)
Theorem softness_scales_fukui d w0 m w r_m r_0 r_p S v N :
  model_of d w0 m w r_m r_0 r_p →
  admissible (_n0 m) v N →
  ∃ l_s w_s l_f w_f ff,
    softness m S v w = (Ok l_s, w_s)
    ∧ fukui_function m v w = (Ok l_f, w_f)
    ∧ heap w_f !! l_f = Some ff
    ∧ heap w_s !! l_s = Some (vscale S ff).
Proof.
  intros Hst%model_of_stored Hv.
  destruct (fukui_function_run _ _ _ _ _ _ _ Hst Hv) as (l & E & Hl & _).
  eexists _, _, l, _, _.
  split; [by apply (softness_run _ _ _ _ _ _ _ _ Hst Hv)|].
  split; [exact E|]. split; [by rewrite heap_warned_local|].
  simpl. by rewrite (list_lookup_middle (heap w) [] _ _ eq_refl).
Qed.

Lemma softness_scales_fukui_witness :
  ∃ l_s w_s l_f w_f ff,
    softness worked_local (qc 2 1) (PInt 4) worked_local_world = (Ok l_s, w_s)
    ∧ fukui_function worked_local (PInt 4) worked_local_world = (Ok l_f, w_f)
    ∧ heap w_f !! l_f = Some ff
    ∧ heap w_s !! l_s = Some (vscale (qc 2 1) ff).
Proof.
  exact (softness_scales_fukui _ _ _ _ _ _ _ (qc 2 1) _ _
           worked_model_of worked_admissible_4).
Defined.



(** C6 as stated does not hold: the field [fukui_function] returns is the
    stored object [ff_zero] itself, an object the store already held before
    the call; writing into the returned field changes the stored one. *)
Lemma fukui_function_alias_counterexample :
  let w' := warned FukuiFunction worked_local PNone worked_local_world in
  fukui_function worked_local PNone worked_local_world
  = (Ok (ff_zero worked_local), w')
  ∧ is_Some (heap worked_local_world !! ff_zero worked_local)
  ∧ heap w' !! ff_zero worked_local = Some [qc 3 1; qc 9 2]
  ∧ ∃ w'', write_array (ff_zero worked_local) [0; 0] w' = (Ok tt, w'')
           ∧ heap w'' !! ff_zero worked_local = Some [0; 0].
Proof.
  split; [vm_compute; reflexivity|].
  split; [vm_compute; by eexists|].
  split; [vm_compute; qc_eq|].
  eexists. split; vm_compute; reflexivity.
Qed.

(** C6, amended: [density] and [softness] return a newly allocated field,
    one the store did not hold before the call ([density(N0)] equals
    [density_zero] in value and is a distinct object); [fukui_function]
    returns one of the stored objects [ff_zero], [ff_minus], [ff_plus]
    itself; and no query ([density], [fukui_function], [softness], [energy],
    [energy_derivative]), whatever its arguments and whether it returns or
    raises, modifies an object the store held before the call. *)
Theorem queries_and_stored_fields d w0 m w r_m r_0 r_p S v N :
  model_of d w0 m w r_m r_0 r_p →
  admissible (_n0 m) v N →
  (∃ l w', density m v w = (Ok l, w')
           ∧ heap w !! l = None
           ∧ (N = _n0 m →
              l ≠ density_zero m
              ∧ heap w' !! l = Some r_0
              ∧ heap w' !! density_zero m = Some r_0))
  ∧ (∃ l w', softness m S v w = (Ok l, w') ∧ heap w !! l = None)
  ∧ (∃ l w', fukui_function m v w = (Ok l, w')
             ∧ l ∈ [ff_zero m; ff_minus m; ff_plus m]
             ∧ is_Some (heap w !! l))
  ∧ (∀ (g : LinearGlobalTool.t) (x order : pyval) (s : Qc) (u : world),
       heap (LinearGlobalTool.energy g x u).2 = heap u
       ∧ heap (LinearGlobalTool.energy_derivative g x order u).2 = heap u
       ∧ heap (fukui_function m x u).2 = heap u
       ∧ heap u `prefix_of` heap (density m x u).2
       ∧ heap u `prefix_of` heap (softness m s x u).2).
Proof.
  intros Hst%model_of_stored Hv.
  pose proof Hst as (Hlm & Hlp & Hz & Hfm & Hfp & Hfz).
  split; [|split; [|split]].
  - eexists _, _. split; [by apply (density_run _ _ _ _ _ _ _ Hst Hv)|].
    split; [by apply lookup_ge_None|].
    intros ->. simpl. split; [|split].
    + intros E. unfold density_zero in E. rewrite <-E in Hz.
      by rewrite lookup_ge_None_2 in Hz.
    + rewrite (list_lookup_middle (heap w) [] _ _ eq_refl).
      unfold linear_density.
      by rewrite !bool_decide_eq_false_2 by apply irreflexivity, _.
    + by apply lookup_app_l_Some.
  - eexists _, _. split; [by apply (softness_run _ _ _ _ _ _ _ _ Hst Hv)|].
    by apply lookup_ge_None.
  - destruct (fukui_function_run _ _ _ _ _ _ _ Hst Hv) as (l & E & Hl & ->).
    eexists _, _. split; [exact E|]. unfold ff_zero, ff_minus, ff_plus.
    split; [repeat case_bool_decide; set_solver|].
    repeat case_bool_decide; by eexists.
  - intros g x order s u.
    split; [apply energy_keeps_heap|].
    split; [apply energy_derivative_keeps_heap|].
    split; [apply fukui_function_keeps_heap|].
    split; [apply density_extends_heap|apply softness_extends_heap].
Qed.

Lemma queries_and_stored_fields_witness :
  (∃ l w', density worked_local PNone worked_local_world = (Ok l, w')
           ∧ heap worked_local_world !! l = None
           ∧ (_n0 worked_local = _n0 worked_local →
              l ≠ density_zero worked_local
              ∧ heap w' !! l = Some [qc 3 1; qc 5 1]
              ∧ heap w' !! density_zero worked_local
                = Some [qc 3 1; qc 5 1]))
  ∧ (∃ l w', softness worked_local (qc 2 1) PNone worked_local_world
             = (Ok l, w')
             ∧ heap worked_local_world !! l = None)
  ∧ (∃ l w', fukui_function worked_local PNone worked_local_world
             = (Ok l, w')
             ∧ l ∈ [ff_zero worked_local; ff_minus worked_local;
                    ff_plus worked_local]
             ∧ is_Some (heap worked_local_world !! l))
  ∧ (∀ (g : LinearGlobalTool.t) (x order : pyval) (s : Qc) (u : world),
       heap (LinearGlobalTool.energy g x u).2 = heap u
       ∧ heap (LinearGlobalTool.energy_derivative g x order u).2 = heap u
       ∧ heap (fukui_function worked_local x u).2 = heap u
       ∧ heap u `prefix_of` heap (density worked_local x u).2
       ∧ heap u `prefix_of` heap (softness worked_local s x u).2).
Proof.
  exact (queries_and_stored_fields _ _ _ _ _ _ _ (qc 2 1) _ _
           worked_model_of worked_admissible_None).
Defined.

End LocalClaims.

(** ** Domain errors *)

Section DomainErrors.

Lemma check_n_elec_bad negative v w :
  bad_n_elec v →
  ∃ msg, LinearLocalTool.check_n_elec negative v w
         = (Raise (ValueError msg), w).
Proof.
  unfold LinearLocalTool.check_n_elec.
  intros [-> [->|(N & Hv & HN)]]; simpl; [by eexists|].
  rewrite (num_isinstance _ _ Hv), (py_lt_num _ _ _ Hv). simpl.
  rewrite bool_decide_eq_true_2 by done. by eexists.
Qed.

Lemma order_check order :
  ¬ positive_int order → isinstance_int order && py_gt order 0 = false.
Proof.
  destruct order as [|b|z|z|q|s]; simpl; try done; intros H.
  - unfold py_gt. simpl. destruct b; [done|].
    by rewrite bool_decide_eq_false_2 by apply irreflexivity, _.
  - unfold py_gt. simpl. apply bool_decide_eq_false_2.
    rewrite <-Z2Qc_inj_0. intros Hlt. by apply H, Z2Qc_inj_lt.
Qed.

(** C7 as stated does not hold: with [n_elec] undefined, [energy_derivative]
    returns [None] before it looks at [order], so an [order] that is not a
    positive integer raises nothing; and [energy], which has no test for
    numbers, ends on a string in [TypeError], not in [ValueError]. *)
Lemma unchecked_arguments_counterexample :
  ¬ positive_int (PInt 0)
  ∧ LinearGlobalTool.energy_derivative worked_model PNone (PInt 0)
      worked_world = (Ok None, worked_world)
  ∧ isinstance_number (PStr "abc") = false
  ∧ ∃ w', LinearGlobalTool.energy worked_model (PStr "abc") worked_world
          = (Raise TypeError, w').
Proof.
  split; [simpl; lia|]. split; [done|]. split; [done|].
  eexists. vm_compute. reflexivity.
Qed.

(** C7, amended: [density], [fukui_function] and [softness] raise
    [ValueError] when [n_elec] is given and is not a number or is a negative
    number, and leave the world as it was; [energy] and [energy_derivative]
    raise [ValueError] when [n_elec] is a negative number, and leave the
    world as it was; [energy_derivative] raises [ValueError] when [n_elec]
    is a number that is not negative and [order] is not a positive integer,
    and leaves the store as it was; with [n_elec] undefined, [energy] and
    [energy_derivative] return [None], whatever [order] is. *)
Theorem domain_errors (g : LinearGlobalTool.t) (m : LinearLocalTool.t)
    (S : Qc) (v order : pyval) (w : world) :
  bad_n_elec v →
  (∃ msg, LinearLocalTool.density m v w = (Raise (ValueError msg), w))
  ∧ (∃ msg, LinearLocalTool.fukui_function m v w
            = (Raise (ValueError msg), w))
  ∧ (∃ msg, LinearLocalTool.softness m S v w = (Raise (ValueError msg), w))
  ∧ (∀ N, num_of v = Some N → N < 0 →
       (∃ msg, LinearGlobalTool.energy g v w = (Raise (ValueError msg), w))
       ∧ (∃ msg, LinearGlobalTool.energy_derivative g v order w
                 = (Raise (ValueError msg), w)))
  ∧ (∀ x N, num_of x = Some N → 0 ≤ N → ¬ positive_int order →
       ∃ msg w', LinearGlobalTool.energy_derivative g x order w
                 = (Raise (ValueError msg), w')
                 ∧ heap w' = heap w)
  ∧ LinearGlobalTool.energy g PNone w = (Ok None, w)
  ∧ LinearGlobalTool.energy_derivative g PNone order w = (Ok None, w).
Proof.
  intros Hbad.
  assert (Hlocal : ∀ negative {A} (k : unit → M A),
            ∃ msg, bind (LinearLocalTool.check_n_elec negative v) k w
                   = (Raise (ValueError msg), w)).
  { intros negative A k.
    destruct (check_n_elec_bad negative v w Hbad) as (msg & E).
    exists msg. by rewrite (bind_raise _ _ _ _ _ E). }
  split; [apply Hlocal|]. split; [apply Hlocal|]. split; [apply Hlocal|].
  split; [|split; [|done]].
  - intros N Hv HN.
    unfold LinearGlobalTool.energy, LinearGlobalTool.energy_derivative.
    rewrite (num_not_None _ _ Hv), (py_lt_num _ _ _ Hv).
    rewrite bool_decide_eq_true_2 by done. split; by eexists.
  - intros x N Hx HN Hord.
    unfold LinearGlobalTool.energy_derivative.
    rewrite (num_not_None _ _ Hx), (py_lt_num _ _ _ Hx).
    rewrite (bool_decide_eq_false_2 (N < 0)) by by apply Qcle_not_lt.
    run (warn_outside_run EnergyDerivative g x w).
    rewrite (order_check _ Hord). simpl.
    eexists _, _. split; [done|]. apply heap_warned.
Qed.

Lemma domain_errors_witness :
  bad_n_elec (PFloat (qc (-1) 1))
  ∧ (∀ N, num_of (PFloat (qc (-1) 1)) = Some N → N < 0 →
       (∃ msg, LinearGlobalTool.energy worked_model (PFloat (qc (-1) 1))
                 worked_world = (Raise (ValueError msg), worked_world))
       ∧ (∃ msg, LinearGlobalTool.energy_derivative worked_model
                   (PFloat (qc (-1) 1)) (PInt 1) worked_world
                 = (Raise (ValueError msg), worked_world))).
Proof.
  assert (H : bad_n_elec (PFloat (qc (-1) 1))).
  { split; [done|]. right. exists (qc (-1) 1). split; [done|by vm_compute]. }
  split; [exact H|].
  exact (proj1 (proj2 (proj2 (proj2
    (domain_errors worked_model worked_local 1 (PFloat (qc (-1) 1)) (PInt 1)
       worked_world H))))).
Defined.

End DomainErrors.

(** ** Binary64: the values the methods compute *)

(** *** Comparisons and products of binary64 numbers *)

Section Binary64Numbers.
Import Floats.
Import Binary64.
Local Open Scope float_scope.

Lemma SFcompare_swap x y c :
  SFcompare x y = Some c → SFcompare y x = Some (CompOpp c).
Proof.
  destruct x as [sx|sx| |sx mx ex], y as [sy|sy| |sy my ey]; simpl;
    try discriminate; intros [= <-]; try (by destruct sx, sy);
    try (by destruct sx); try (by destruct sy).
  destruct sx, sy; try done.
  - rewrite (Z.compare_antisym ey ex). destruct (ey ?= ex)%Z; simpl; try done.
    by rewrite (Pos.compare_cont_antisym mx my Eq).
  - rewrite (Z.compare_antisym ey ex). destruct (ey ?= ex)%Z; simpl; try done.
    by rewrite (Pos.compare_cont_antisym mx my Eq), ?CompOpp_involutive.
Qed.

(** Two values that each compare with something compare with each other:
    neither is NaN. *)
Lemma SFcompare_defined x x' y y' c c' :
  SFcompare x x' = Some c → SFcompare y y' = Some c' →
  ∃ c'', SFcompare x y = Some c''.
Proof. destruct x, y; simpl; try discriminate; intros _ _; by eexists. Qed.

Lemma is_number_defined x :
  is_number x → ∃ c, SFcompare (Prim2SF x) (Prim2SF x) = Some c.
Proof.
  unfold is_number. rewrite eqb_spec. unfold SFeqb.
  destruct (SFcompare _ _) as [c|]; [by exists c|done].
Qed.

Lemma is_number_zero : is_number 0.
Proof. reflexivity. Qed.

(** A number that is at least zero is a number. *)
Lemma nonneg_is_number n : (0 <=? n) = true → is_number n.
Proof.
  rewrite leb_spec. unfold SFleb, is_number. rewrite eqb_spec. unfold SFeqb.
  destruct (SFcompare (Prim2SF 0) (Prim2SF n)) as [c|] eqn:E; [|done].
  intros _. apply SFcompare_swap in E.
  destruct (Prim2SF n) as [s|s| |s m e]; simpl in *; try done.
  - by destruct s.
  - destruct s; by rewrite Z.compare_refl, Pos.compare_cont_refl.
Qed.

(** Of two numbers, one is below the other or they are equal, and the
    tests of the code agree on which. *)
Lemma float_trichotomy x y :
  is_number x → is_number y →
  ((x <? y) = true ∧ (x =? y) = false ∧ (y <? x) = false
   ∧ (x <=? y) = true)
  ∨ ((x <? y) = false ∧ (x =? y) = true ∧ (y <? x) = false
     ∧ (x <=? y) = true)
  ∨ ((x <? y) = false ∧ (x =? y) = false ∧ (y <? x) = true
     ∧ (x <=? y) = false).
Proof.
  intros [cx Hx]%is_number_defined [cy Hy]%is_number_defined.
  destruct (SFcompare_defined _ _ _ _ _ _ Hx Hy) as [c Hc].
  rewrite !ltb_spec, eqb_spec, leb_spec. unfold SFltb, SFeqb, SFleb.
  rewrite Hc, (SFcompare_swap _ _ _ Hc).
  destruct c; simpl; auto 10.
Qed.

Lemma nonneg_not_negative n : (0 <=? n) = true → (n <? 0) = false.
Proof.
  intros H. pose proof (nonneg_is_number _ H) as Hn.
  destruct (float_trichotomy 0 n is_number_zero Hn)
    as [(_ & _ & ? & _)|[(_ & _ & ? & _)|(_ & _ & _ & ?)]];
    [done|done|congruence].
Qed.

Lemma float_leb_refl x : is_number x → (x <=? x) = true.
Proof.
  intros [c Hc]%is_number_defined. pose proof (SFcompare_swap _ _ _ Hc) as Hs.
  rewrite leb_spec. unfold SFleb. rewrite Hc in Hs |- *.
  destruct c; simpl in *; congruence.
Qed.

Lemma float_eqb_refl x : is_number x → (x =? x) = true.
Proof. done. Qed.

(** The rounded product does not depend on the order of its factors. *)
Lemma SF64mul_comm x y : SF64mul x y = SF64mul y x.
Proof.
  unfold SF64mul, SFmul.
  destruct x as [sx|sx| |sx mx ex], y as [sy|sy| |sy my ey]; try done;
    try (by rewrite xorb_comm).
  by rewrite xorb_comm, Pos.mul_comm, Z.add_comm.
Qed.

Lemma float_mul_comm (x y : float) : x * y = y * x.
Proof. apply Prim2SF_inj. by rewrite !mul_spec, SF64mul_comm. Qed.

Lemma np_binop_same_shape f xs ys :
  length xs = length ys → np_binop f xs ys = Ok (zip_with f xs ys).
Proof. intros H. unfold np_binop. by rewrite bool_decide_eq_true_2. Qed.

Lemma np_iadd_same_shape out ys :
  length ys = length out → np_iadd out ys = Ok (vadd out ys).
Proof. intros H. unfold np_iadd. by rewrite bool_decide_eq_true_2. Qed.

Lemma length_vsub_r xs ys :
  length xs = length ys → length (vsub xs ys) = length ys.
Proof. intros H. unfold vsub. rewrite length_zip_with. lia. Qed.

Lemma length_vsub_l xs ys :
  length xs = length ys → length (vsub xs ys) = length xs.
Proof. intros H. unfold vsub. rewrite length_zip_with. lia. Qed.

End Binary64Numbers.

(** *** The global tool *)

Section Binary64Global.
Import Floats.
Import Binary64.
Import Binary64.LinearGlobalTool.
#[local] Set Warnings "-inexact-float".
Local Open Scope float_scope.

(** C1 as stated does not hold: for the triple
    {0: -0.4, 1: -0.1, 2: -0.5} of floats, [energy(1)], the energy at N0, is
    -0.09999999999999998 and not E0 = -0.1: b = E0 - E- rounds to
    0.30000000000000004, and a + 1*b does not come back to E0. *)
Lemma energy_junction_counterexample :
  (energy (__init__ 1 (-0.4) (-0.1) (-0.5)) (Some 1)).1
  = Ok (Some (-0.09999999999999998))
  ∧ (-0.09999999999999998 =? -0.1) = false
  ∧ _params (__init__ 1 (-0.4) (-0.1) (-0.5)) !! 1%nat
    = Some 0.30000000000000004.
Proof. repeat split. Qed.

(** C1, amended: on a model built from a triple {N0-1: E-, N0: E0, N0+1: E+}
    of floats, for every number N >= 0, in the interpolation region or
    outside of it, [energy(N)] returns a + b*N when N <= N0 and a' + b'*N
    when N > N0, with b = E0 - E-, a = E0 - N0*b, b' = E+ - E0,
    a' = E0 - N0*b' and each operation rounded to binary64; N > N0 is what
    N <= N0 failing means, so the call raises nothing; and at N0 it is the
    first piece, a + b*N0, that is returned. *)
Theorem energy_piecewise_binary64 n_ref e_m e_0 e_p n :
  is_number n_ref →
  (0 <=? n) = true →
  let m := __init__ n_ref e_m e_0 e_p in
  let b := e_0 - e_m in
  let a := e_0 - n_ref * b in
  let b' := e_p - e_0 in
  let a' := e_0 - n_ref * b' in
  (energy m (Some n)).1
  = Ok (Some (if n <=? n_ref then a + b * n else a' + b' * n))
  ∧ ((n <=? n_ref) = false ↔ (n_ref <? n) = true)
  ∧ (n_ref <=? n_ref) = true.
Proof.
  intros H0 Hn m b a b' a'.
  pose proof (nonneg_not_negative _ Hn) as Hneg.
  pose proof (nonneg_is_number _ Hn) as Hnum.
  split; [|split; [|by apply float_leb_refl]].
  - subst m b a b' a'. unfold energy, __init__. cbn [_n0 _params].
    rewrite Hneg. simpl.
    rewrite (float_mul_comm n (e_0 - e_m)), (float_mul_comm n (e_p - e_0)).
    destruct (float_trichotomy n n_ref Hnum H0)
      as [(_ & _ & _ & ->)|[(_ & _ & _ & ->)|(_ & _ & -> & ->)]]; done.
  - destruct (float_trichotomy n n_ref Hnum H0)
      as [(_ & _ & -> & ->)|[(_ & _ & -> & ->)|(_ & _ & -> & ->)]]; done.
Qed.

(** C1 on the triple {4: -14.0, 5: -15.0, 6: -15.5}, at 7.5 electrons. *)
Lemma energy_piecewise_binary64_witness :
  let m := __init__ 5 (-14) (-15) (-15.5) in
  let b := -15 - -14 in
  let a := -15 - 5 * b in
  let b' := -15.5 - -15 in
  let a' := -15 - 5 * b' in
  (energy m (Some 7.5)).1
  = Ok (Some (if 7.5 <=? 5 then a + b * 7.5 else a' + b' * 7.5))
  ∧ ((7.5 <=? 5) = false ↔ (5 <? 7.5) = true)
  ∧ (5 <=? 5) = true.
Proof.
  exact (energy_piecewise_binary64 5 (-14) (-15) (-15.5) 7.5 eq_refl eq_refl).
Defined.

End Binary64Global.

(** *** The local tool *)

Section Binary64Local.
Import Floats.
Import Binary64.
Import Binary64.LinearLocalTool.
#[local] Set Warnings "-inexact-float".
Local Open Scope float_scope.

(** C5 as stated does not hold: for the densities 0.0, 0.2 and 0.9 of 4, 5
    and 6 electrons at one point, [fukui_function()] and
    [fukui_function(5)] return the stored [_ff_zero] = 0.5*(0.9 - 0.0)
    = 0.45, while (ff_plus + ff_minus)/2 is 0.44999999999999996. *)
Lemma ff_zero_is_not_the_average_counterexample :
  ∃ m, __init__ 5 [0.0] [0.2] [0.9] = Ok m
       ∧ (fukui_function m None).1 = Ok [0.45]
       ∧ (fukui_function m (Some 5)).1 = Ok [0.45]
       ∧ average (_ff_plus m) (_ff_minus m) = [0.44999999999999996]
       ∧ (0.45 =? 0.44999999999999996) = false.
Proof. eexists. repeat split. Qed.

(** C5, amended: on a model built from a density triple of float arrays of
    one shape, for every number N >= 0, [density(N)] returns
    rho0 + ff_minus*(N - N0) when N < N0, rho0 + ff_plus*(N - N0) when
    N > N0 and rho0 when N == N0 or N is omitted; [fukui_function(N)]
    returns ff_minus when N < N0, ff_plus when N > N0 and ff_zero when
    N == N0 or N is omitted; here ff_minus = rho0 - rho-,
    ff_plus = rho+ - rho0 and ff_zero = 0.5*(rho+ - rho-), each operation
    rounded to binary64. *)
Theorem density_and_fukui_binary64 n0 r_m r_0 r_p n_elec :
  (0 <=? n0) = true →
  length r_m = length r_0 →
  length r_p = length r_0 →
  admissible n_elec →
  let f_minus := vsub r_0 r_m in
  let f_plus := vsub r_p r_0 in
  let f_zero := np_scale_l 0.5 (vsub r_p r_m) in
  ∃ m, __init__ n0 r_m r_0 r_p = Ok m
       ∧ _ff_minus m = f_minus ∧ _ff_plus m = f_plus ∧ _ff_zero m = f_zero
       ∧ (density m n_elec).1
         = Ok (linear_density n0 n_elec r_0 f_minus f_plus)
       ∧ (fukui_function m n_elec).1
         = Ok (select_ff n0 n_elec f_minus f_plus f_zero)
       ∧ (density m (Some n0)).1 = Ok r_0
       ∧ (fukui_function m (Some n0)).1 = Ok f_zero
       ∧ (fukui_function m None).1 = Ok f_zero.
Proof.
  intros H0 Hm Hp Hadm f_minus f_plus f_zero.
  pose proof (nonneg_is_number _ H0) as Hnum0.
  pose proof (nonneg_not_negative _ H0) as Hneg0.
  eexists. split.
  { unfold __init__.
    rewrite !np_binop_same_shape by congruence. reflexivity. }
  cbn [_ff_minus _ff_plus _ff_zero].
  repeat (split; [done|]).
  split; [|split; [|split; [|split]]].
  - destruct n_elec as [n|]; [|done].
    pose proof (nonneg_not_negative _ Hadm) as Hneg.
    pose proof (nonneg_is_number _ Hadm) as Hnum.
    unfold density, linear_density. cbn [negative _n0 _dens_0 _ff_minus _ff_plus].
    rewrite Hneg.
    destruct (float_trichotomy n n0 Hnum Hnum0)
      as [(-> & -> & _)|[(-> & -> & -> & _)|(-> & -> & -> & _)]];
      cbn [negb fst]; [|done|].
    + apply np_iadd_same_shape. unfold vscale, f_minus.
      by rewrite length_map, length_vsub_l.
    + apply np_iadd_same_shape. unfold vscale, f_plus.
      by rewrite length_map, length_vsub_r.
  - destruct n_elec as [n|]; [|done].
    pose proof (nonneg_not_negative _ Hadm) as Hneg.
    pose proof (nonneg_is_number _ Hadm) as Hnum.
    unfold fukui_function, select_ff.
    cbn [negative _n0 _ff_zero _ff_minus _ff_plus]. rewrite Hneg.
    destruct (float_trichotomy n n0 Hnum Hnum0)
      as [(-> & -> & _)|[(-> & -> & -> & _)|(-> & -> & -> & _)]]; done.
  - unfold density. cbn [negative _n0 _dens_0]. rewrite Hneg0.
    by rewrite (float_eqb_refl _ Hnum0).
  - unfold fukui_function. cbn [negative _n0 _ff_zero]. rewrite Hneg0.
    by rewrite (float_eqb_refl _ Hnum0).
  - done.
Qed.

(** C5 on the three densities of a grid of two points, for 4, 5 and 6
    electrons, at 4.5 electrons. *)
Lemma density_and_fukui_binary64_witness :
  let f_minus := vsub [3; 5] [1; 2] in
  let f_plus := vsub [7; 11] [3; 5] in
  let f_zero := np_scale_l 0.5 (vsub [7; 11] [1; 2]) in
  ∃ m, __init__ 5 [1; 2] [3; 5] [7; 11] = Ok m
       ∧ _ff_minus m = f_minus ∧ _ff_plus m = f_plus ∧ _ff_zero m = f_zero
       ∧ (density m (Some 4.5)).1
         = Ok (linear_density 5 (Some 4.5) [3; 5] f_minus f_plus)
       ∧ (fukui_function m (Some 4.5)).1
         = Ok (select_ff 5 (Some 4.5) f_minus f_plus f_zero)
       ∧ (density m (Some 5)).1 = Ok [3; 5]
       ∧ (fukui_function m (Some 5)).1 = Ok f_zero
       ∧ (fukui_function m None).1 = Ok f_zero.
Proof.
  exact (density_and_fukui_binary64 5 [1; 2] [3; 5] [7; 11] (Some 4.5)
           eq_refl eq_refl eq_refl eq_refl).
Defined.

End Binary64Local.

(** ** Concrete scenarios of the specification (section 8) *)

Section Scenarios.

(** Scenario 1: the parameters of the triple {4: -14.0, 5: -15.0, 6: -15.5}
    are a = -10, b = -1, a' = -12.5, b' = -0.5, and [energy(5)] is E0. *)
Example scenario_parameters :
  heap worked_world !! LinearGlobalTool.params worked_model
  = Some [qc (-10) 1; qc (-1) 1; qc (-25) 2; qc (-1) 2].
Proof. vm_compute. qc_eq. Qed.

Example scenario_energy_at_reference :
  ∃ e, LinearGlobalTool.energy worked_model (PInt 5) worked_world
       = (Ok (Some e), worked_world)
       ∧ e = qc (-15) 1.
Proof. eexists. split; [vm_compute; reflexivity|qc_eq]. Qed.

(** Scenario 2: a mapping with two entries is rejected by both
    constructors. *)
Example scenario_two_entries_global :
  ∃ msg, LinearGlobalTool.__init__ {[ qc 1 1 := qc 0 1; qc 3 1 := qc 1 1 ]}
           empty_world
         = (Raise (ValueError msg), empty_world).
Proof. eexists. vm_compute. reflexivity. Qed.

Example scenario_two_entries_local :
  ∃ msg, LinearLocalTool.__init__ {[ qc 1 1 := 0%nat; qc 3 1 := 1%nat ]}
           grid_world
         = (Raise (ValueError msg), grid_world).
Proof. eexists. vm_compute. reflexivity. Qed.

(** Scenario 3: [energy(-1.0)] raises [ValueError]. *)
Example scenario_negative_n_elec :
  ∃ msg, LinearGlobalTool.energy worked_model (PFloat (qc (-1) 1))
           worked_world
         = (Raise (ValueError msg), worked_world).
Proof. eexists. vm_compute. reflexivity. Qed.

(** Scenario 4: [energy(7.5)], outside [4, 6], returns a' + b' * 7.5 and
    logs one warning. *)
Example scenario_extrapolation :
  ∃ e w', LinearGlobalTool.energy worked_model (PFloat (qc 15 2)) worked_world
          = (Ok (Some e), w')
          ∧ e = qc (-25) 2 + qc (-1) 2 * qc 15 2
          ∧ length (log w') = S (length (log worked_world)).
Proof.
  eexists _, _. split; [vm_compute; reflexivity|]. split; [qc_eq|done].
Qed.

(** In Python 2 a string compares above every number: [energy_derivative]
    accepts it as an electron count above the reference. *)
Example string_n_elec_derivative :
  ∃ e w', LinearGlobalTool.energy_derivative worked_model (PStr "abc")
            (PInt 2) worked_world
          = (Ok (Some e), w')
          ∧ e = 0.
Proof. eexists _, _. split; [vm_compute; reflexivity|qc_eq]. Qed.

End Scenarios.

(** * Further properties of the code *)

(** ** Warnings *)

Section Warnings.

Lemma keeps_log_ret {A} (a : A) : keeps_log (ret a).
Proof. by intros w. Qed.

Lemma keeps_log_raise {A} (e : exn) : keeps_log (@raise A e).
Proof. by intros w. Qed.

Lemma keeps_log_lift {A} (r : result A) : keeps_log (lift r).
Proof. by intros w. Qed.

Lemma keeps_log_bind {A B} (c : M A) (k : A → M B) :
  keeps_log c → (∀ a, keeps_log (k a)) → keeps_log (bind c k).
Proof.
  intros Hc Hk w. unfold bind. specialize (Hc w).
  destruct (c w) as [[a|e] w']; simpl in *; [|done].
  by rewrite Hk.
Qed.

Lemma keeps_log_read_array l : keeps_log (read_array l).
Proof. intros w. unfold read_array. by destruct (heap w !! l). Qed.

Lemma keeps_log_write_array l xs : keeps_log (write_array l xs).
Proof. intros w. unfold write_array. by destruct (heap w !! l). Qed.

Lemma keeps_log_new_array xs : keeps_log (new_array xs).
Proof. by intros w. Qed.

Lemma keeps_log_getitem l i : keeps_log (getitem l i).
Proof.
  apply keeps_log_bind; [apply keeps_log_read_array|].
  intros xs. destruct (xs !! i); [apply keeps_log_ret|apply keeps_log_raise].
Qed.

Lemma keeps_log_py_mul v x : keeps_log (py_mul v x).
Proof.
  unfold py_mul.
  destruct (num_of v); [apply keeps_log_ret|apply keeps_log_raise].
Qed.

Lemma keeps_log_py_sub v x : keeps_log (py_sub v x).
Proof.
  unfold py_sub.
  destruct (num_of v); [apply keeps_log_ret|apply keeps_log_raise].
Qed.

Lemma keeps_log_iadd rho ys : keeps_log (iadd rho ys).
Proof.
  unfold iadd. apply keeps_log_bind; [apply keeps_log_read_array|].
  intros out. apply keeps_log_bind; [apply keeps_log_lift|].
  intros r. apply keeps_log_write_array.
Qed.

Create HintDb quiet.
Hint Resolve keeps_log_ret keeps_log_raise keeps_log_lift
  keeps_log_read_array keeps_log_write_array keeps_log_new_array
  keeps_log_getitem keeps_log_py_mul keeps_log_py_sub keeps_log_iadd : quiet.













End Warnings.

(** ** The global tool: the parameter list and the chemical potentials *)

Section GlobalExtras.
Import LinearGlobalTool.


Lemma init_fields d w0 m w1 e_m e_0 e_p :
  __init__ d w0 = (Ok m, w1) →
  is_triple d (_n0 m) e_m e_0 e_p →
  _ip m = e_m - e_0
  ∧ _ea m = e_0 - e_p
  ∧ _n_max m = (if bool_decide (e_0 < e_p) then Some (_n0 m) else None)
  ∧ (_params m < length (heap w1))%nat.
Proof.
  intros (e_m' & e_0' & e_p' & (Hm & H0 & Hp) & _ & Hip & Hea & Hmax & _ & Hl & ->)%init_inv
    (Hm' & H0' & Hp').
  rewrite Hm in Hm'. rewrite H0 in H0'. rewrite Hp in Hp'.
  injection Hm' as ->. injection H0' as ->. injection Hp' as ->.
  repeat (split; [done|]). rewrite Hl. simpl. rewrite length_app. simpl. lia.
Qed.

(** X7: the property [params] hands out the list the model itself reads:
    after a caller overwrites that list, [energy] evaluates the new
    numbers, not the ones the constructor computed. *)
Theorem params_is_the_live_list d w0 m w1 p0 p1 p2 p3 v N :
  __init__ d w0 = (Ok m, w1) →
  num_of v = Some N →
  0 ≤ N →
  ∃ w2 w3,
    write_array (params m) [p0; p1; p2; p3] w1 = (Ok tt, w2)
    ∧ energy m v w2
      = (Ok (Some (if bool_decide (N ≤ _n0 m) then p0 + N * p1
                   else p2 + N * p3)), w3).
Proof.
  intros Hinit Hv HN.
  destruct (init_inv _ _ _ _ Hinit)
    as (e_m & e_0 & e_p & Ht & _ & _ & _ & _ & _ & Hl & Hw1).
  pose proof (init_params _ _ _ _ _ _ _ Hinit Ht) as Hp.
  destruct (init_fields _ _ _ _ _ _ _ Hinit Ht) as (_ & _ & _ & Hlt).
  eexists _, _. split.
  - unfold write_array, params. rewrite Hp. reflexivity.
  - apply energy_run; [|done..]. simpl.
    by apply list_lookup_insert_eq.
Qed.

Lemma params_is_the_live_list_witness :
  ∃ w2 w3,
    write_array (params worked_model) [0; 1; 0; 1] worked_world = (Ok tt, w2)
    ∧ energy worked_model (PInt 5) w2
      = (Ok (Some (if bool_decide (Qc_of_Z 5 ≤ _n0 worked_model)
                   then 0 + Qc_of_Z 5 * 1 else 0 + Qc_of_Z 5 * 1)), w3).
Proof.
  assert (H0 : 0 ≤ Qc_of_Z 5) by (by vm_compute).
  exact (params_is_the_live_list _ _ _ _ 0 1 0 1 (PInt 5) _
           worked_init eq_refl H0).
Defined.

(** X8: away from N0 the first derivative of the energy is the chemical
    potential of that side: [mu_minus] below N0 and [mu_plus] above it. *)
Theorem derivative_is_chemical_potential d w0 m w1 e_m e_0 e_p w v N :
  __init__ d w0 = (Ok m, w1) →
  is_triple d (_n0 m) e_m e_0 e_p →
  heap w !! _params m = heap w1 !! _params m →
  num_of v = Some N →
  0 ≤ N →
  N ≠ _n0 m →
  ∃ w', energy_derivative m v default_order w
        = (Ok (Some (if bool_decide (N < _n0 m) then mu_minus m
                     else mu_plus m)), w').
Proof.
  intros Hinit Ht Hw Hv HN Hne.
  destruct (init_fields _ _ _ _ _ _ _ Hinit Ht) as (Hip & Hea & _).
  rewrite (init_params _ _ _ _ _ _ _ Hinit Ht) in Hw.
  eexists. unfold default_order.
  rewrite (energy_derivative_run _ _ _ _ 1%Z _ _ _ _ Hw Hv HN eq_refl).
  rewrite (bool_decide_eq_false_2 (N = _n0 m)) by done.
  rewrite (bool_decide_eq_false_2 (2 ≤ 1)%Z) by lia.
  do 2 f_equal. unfold mu_minus, mu_plus, spec_b, spec_b'.
  rewrite Hip, Hea. case_bool_decide; f_equal; ring.
Qed.

Lemma derivative_is_chemical_potential_witness :
  ∃ w', energy_derivative worked_model (PFloat (qc 9 2)) default_order
          worked_world
        = (Ok (Some (if bool_decide (qc 9 2 < _n0 worked_model)
                     then mu_minus worked_model
                     else mu_plus worked_model)), w').
Proof.
  assert (H0 : 0 ≤ qc 9 2) by (by vm_compute).
  assert (Hne : qc 9 2 ≠ _n0 worked_model).
  { intros H. apply (f_equal this) in H. by vm_compute in H. }
  exact (derivative_is_chemical_potential _ _ _ _ _ _ _ worked_world
           (PFloat (qc 9 2)) _ worked_init worked_is_triple eq_refl eq_refl
           H0 Hne).
Defined.

End GlobalExtras.

(** ** The local tool: isolation and densities that stay non-negative *)

Section LocalExtras.
Import LinearLocalTool.


Lemma model_of_extend d w0 m w w' r_m r_0 r_p :
  model_of d w0 m w r_m r_0 r_p →
  heap w `prefix_of` heap w' →
  model_of d w0 m w' r_m r_0 r_p.
Proof.
  intros Hm Hpre. pose proof (model_of_stored _ _ _ _ _ _ _ Hm)
    as (_ & _ & Hz & Hfm & Hfp & Hfz).
  destruct Hm as (w1 & l_m & l_0 & l_p & Hinit & Ht & Hrm & Hr0 & Hrp
                  & Hlm & Hlp & Hw).
  exists w1, l_m, l_0, l_p. repeat (split; [done|]).
  intros l Hl. rewrite <-(Hw l Hl).
  assert (Hsome : is_Some (heap w !! l)).
  { apply list_elem_of_In in Hl. simpl in Hl.
    destruct Hl as [<-|[<-|[<-|[<-|[]]]]]; by eexists. }
  destruct Hsome as [x Hx]. rewrite Hx.
  by apply (prefix_lookup_Some _ _ _ _ Hx).
Qed.

(** X11: the queries keep the model usable: in the world any call of
    [density], [fukui_function] or [softness] leaves, with any argument and
    whether it returned or raised, the fields of the model are still those
    the constructor computed. *)
Theorem queries_preserve_model d w0 m w r_m r_0 r_p S v :
  model_of d w0 m w r_m r_0 r_p →
  model_of d w0 m (density m v w).2 r_m r_0 r_p
  ∧ model_of d w0 m (fukui_function m v w).2 r_m r_0 r_p
  ∧ model_of d w0 m (softness m S v w).2 r_m r_0 r_p.
Proof.
  intros Hm. split; [|split]; apply (model_of_extend _ _ _ _ _ _ _ _ Hm).
  - apply density_extends_heap.
  - by rewrite fukui_function_keeps_heap.
  - apply softness_extends_heap.
Qed.

Lemma queries_preserve_model_witness :
  model_of worked_densities grid_world worked_local
    (density worked_local (PStr "abc") worked_local_world).2
    [qc 1 1; qc 2 1] [qc 3 1; qc 5 1] [qc 7 1; qc 11 1]
  ∧ model_of worked_densities grid_world worked_local
      (fukui_function worked_local (PInt 8) worked_local_world).2
      [qc 1 1; qc 2 1] [qc 3 1; qc 5 1] [qc 7 1; qc 11 1]
  ∧ model_of worked_densities grid_world worked_local
      (softness worked_local (qc 2 1) (PInt 8) worked_local_world).2
      [qc 1 1; qc 2 1] [qc 3 1; qc 5 1] [qc 7 1; qc 11 1].
Proof.
  split; [|split].
  - exact (proj1 (queries_preserve_model _ _ _ _ _ _ _ 0 (PStr "abc")
                    worked_model_of)).
  - exact (proj1 (proj2 (queries_preserve_model _ _ _ _ _ _ _ 0 (PInt 8)
                           worked_model_of))).
  - exact (proj2 (proj2 (queries_preserve_model _ _ _ _ _ _ _ (qc 2 1)
                           (PInt 8) worked_model_of))).
Defined.

(** X12: the array [density] returns belongs to the caller: whatever the
    caller writes into it, the fields of the model stay as they were, and a
    second call with the same argument returns the same density again, in
    another new array, leaving the first one as the caller wrote it. *)
Theorem density_result_is_isolated d w0 m w r_m r_0 r_p v N xs :
  model_of d w0 m w r_m r_0 r_p →
  admissible (_n0 m) v N →
  ∃ l w1 w2 l' w3,
    density m v w = (Ok l, w1)
    ∧ write_array l xs w1 = (Ok tt, w2)
    ∧ model_of d w0 m w2 r_m r_0 r_p
    ∧ density m v w2 = (Ok l', w3)
    ∧ l' ≠ l
    ∧ heap w1 !! l = heap w3 !! l'
    ∧ heap w3 !! l = Some xs.
Proof.
  intros Hm Hv.
  pose proof (model_of_stored _ _ _ _ _ _ _ Hm) as Hst.
  pose proof (density_run _ _ _ _ _ _ _ Hst Hv) as E1.
  set (rho := linear_density (_n0 m) N r_0 (vsub r_0 r_m) (vsub r_p r_0))
    in *.
  set (lg := log (warned ElectronDensity m v w)) in *.
  set (w2 := World (heap w ++ [xs]) lg).
  assert (Hm2 : model_of d w0 m w2 r_m r_0 r_p)
    by (apply (model_of_extend _ _ _ _ _ _ _ _ Hm), heap_prefix_app).
  pose proof (density_run _ _ _ _ _ _ _
                (model_of_stored _ _ _ _ _ _ _ Hm2) Hv) as E2.
  eexists _, _, w2, _, _.
  split; [exact E1|]. split.
  { unfold write_array. cbn [heap log].
    rewrite (list_lookup_middle (heap w) [] rho _ eq_refl).
    by rewrite insert_last. }
  split; [exact Hm2|]. split; [exact E2|].
  cbn [heap log w2]. rewrite length_app. simpl.
  split; [lia|]. split.
  - rewrite (list_lookup_middle (heap w) [] rho _ eq_refl).
    rewrite (list_lookup_middle (heap w ++ [xs]) [] rho);
      [done|by rewrite length_app].
  - rewrite lookup_app_l by (rewrite length_app; simpl; lia).
    by rewrite (list_lookup_middle (heap w) [] xs _ eq_refl).
Qed.

Lemma density_result_is_isolated_witness :
  ∃ l w1 w2 l' w3,
    density worked_local (PInt 4) worked_local_world = (Ok l, w1)
    ∧ write_array l [0; 0] w1 = (Ok tt, w2)
    ∧ model_of worked_densities grid_world worked_local w2
        [qc 1 1; qc 2 1] [qc 3 1; qc 5 1] [qc 7 1; qc 11 1]
    ∧ density worked_local (PInt 4) w2 = (Ok l', w3)
    ∧ l' ≠ l
    ∧ heap w1 !! l = heap w3 !! l'
    ∧ heap w3 !! l = Some [0; 0].
Proof.
  exact (density_result_is_isolated _ _ _ _ _ _ _ _ _ [0; 0]
           worked_model_of worked_admissible_4).
Defined.







End LocalExtras.

(** ** Binary64: a number of electrons that is NaN *)

Section Binary64Extras.
Import Floats.
Import Binary64.
Local Open Scope float_scope.

Lemma not_number_nan x : (x =? x) = false → Prim2SF x = S754_nan.
Proof.
  rewrite eqb_spec. unfold SFeqb.
  destruct (Prim2SF x) as [s|s| |s m e]; simpl; try done;
    destruct s; by rewrite ?Z.compare_refl, ?Pos.compare_cont_refl.
Qed.

(** Every test on NaN fails. *)
Lemma nan_tests x y :
  (x =? x) = false →
  (x <? y) = false ∧ (y <? x) = false ∧ (x <=? y) = false
  ∧ (y <=? x) = false ∧ (x =? y) = false.
Proof.
  intros H%not_number_nan.
  rewrite !ltb_spec, !leb_spec, eqb_spec, H. unfold SFltb, SFleb, SFeqb.
  by destruct (Prim2SF y).
Qed.

Lemma worked_local_binary64_init :
  LinearLocalTool.__init__ 5 [1; 2] [3; 5] [7; 11] = Ok worked_local_binary64.
Proof. reflexivity. Qed.

(** X14: a float [n_elec] that is NaN passes the test for a negative number
    and fails every comparison with N0: [energy] logs its warning and ends
    in its last branch, the [ValueError] on a number that is not a positive
    real; [fukui_function] logs its warning, binds no field and ends in an
    [UnboundLocalError]; [density] logs its warning, takes neither branch
    and returns the density of N0 electrons. *)
Theorem nan_n_elec (g : LinearGlobalTool.t) (l : LinearLocalTool.t) n :
  (n =? n) = false →
  LinearGlobalTool.energy g (Some n)
  = (Raise (ValueError "Argument n_elec should be a positive real number!"),
     [Advisory Energy (Some n) (LinearGlobalTool._n0 g - 1)
        (LinearGlobalTool._n0 g + 1)])
  ∧ LinearLocalTool.fukui_function l (Some n)
    = (Raise UnboundLocalError,
       [Advisory FukuiFunction (Some n) (LinearLocalTool._n0 l - 1)
          (LinearLocalTool._n0 l + 1)])
  ∧ LinearLocalTool.density l (Some n)
    = (Ok (LinearLocalTool._dens_0 l),
       [Advisory ElectronDensity (Some n) (LinearLocalTool._n0 l - 1)
          (LinearLocalTool._n0 l + 1)]).
Proof.
  intros Hnan.
  assert (Hout : ∀ n0, outside n0 n = true).
  { intros n0. unfold outside.
    destruct (nan_tests n (n0 + 1) Hnan) as (_ & _ & -> & _).
    by rewrite andb_false_r. }
  destruct (nan_tests n 0 Hnan) as (Hneg & _).
  split; [|split].
  - unfold LinearGlobalTool.energy, warn_outside. rewrite Hneg, Hout.
    by destruct (nan_tests n (LinearGlobalTool._n0 g) Hnan)
      as (_ & -> & -> & _).
  - unfold LinearLocalTool.fukui_function, warn_outside.
    cbn [LinearLocalTool.negative]. rewrite Hneg, Hout.
    by destruct (nan_tests n (LinearLocalTool._n0 l) Hnan)
      as (-> & -> & _ & _ & ->).
  - unfold LinearLocalTool.density, warn_outside.
    cbn [LinearLocalTool.negative]. rewrite Hneg, Hout.
    by destruct (nan_tests n (LinearLocalTool._n0 l) Hnan)
      as (-> & -> & _ & _ & ->).
Qed.

(** X14 on the models of {4: -14.0, 5: -15.0, 6: -15.5} and of three
    densities on a grid of two points. *)
Lemma nan_n_elec_witness :
  LinearGlobalTool.energy
    (LinearGlobalTool.__init__ 5 (-14) (-15) (-15.5)) (Some nan)
  = (Raise (ValueError "Argument n_elec should be a positive real number!"),
     [Advisory Energy (Some nan) (5 - 1) (5 + 1)])
  ∧ LinearLocalTool.fukui_function worked_local_binary64 (Some nan)
    = (Raise UnboundLocalError,
       [Advisory FukuiFunction (Some nan) (5 - 1) (5 + 1)])
  ∧ LinearLocalTool.density worked_local_binary64 (Some nan)
    = (Ok [3; 5], [Advisory ElectronDensity (Some nan) (5 - 1) (5 + 1)]).
Proof.
  exact (nan_n_elec (LinearGlobalTool.__init__ 5 (-14) (-15) (-15.5))
           worked_local_binary64 nan eq_refl).
Defined.

End Binary64Extras.
